(** * gormtool: a shallow embedding of [main.go] and its checked properties

    The generator scans Go source files for types with a [TableName]
    method, builds a [ModelInfo] for each of them and renders the models
    through two templates into size-bounded output files.

    Conventions of the embedding:
    - a Go [string] is a Rocq [string] (a sequence of bytes); the rendered
      output held by the [bytes.Buffer] is a [list Byte.byte];
    - a Go [int] is a [Z] where it is compared with a configured bound and
      a [nat] where it only counts (slice indices, the file index);
    - a nilable pointer is an [option]; dereferencing [None] panics;
    - a run-time panic is the [Panic] outcome of the [outcome] monad;
    - Go maps are stdpp [gmap]s, slices written by index use stdpp's list
      insert. *)

From Stdlib Require Import ZArith Lia Ascii String List.
From Stdlib.Strings Require Import Byte.
From stdpp Require Import base option list strings gmap fin_maps.

Local Open Scope Z_scope.
Local Open Scope list_scope.

(** ** Panics *)

Inductive outcome (A : Type) : Type :=
| Ret (a : A)
| Panic (msg : string).
Arguments Ret {A} a.
Arguments Panic {A} msg.

Definition obind {A B} (m : outcome A) (k : A -> outcome B) : outcome B :=
  match m with
  | Ret a => k a
  | Panic msg => Panic msg
  end.

(** [outcome] is used with stdpp's monad notation: [x ← m; k]. *)
#[export] Instance outcome_ret : MRet outcome := @Ret.
#[export] Instance outcome_bind : MBind outcome := fun A B k m => obind m k.

Definition nil_dereference : string := "invalid memory address or nil pointer dereference".
Definition index_out_of_range : string := "index out of range".
Definition slice_out_of_range : string := "slice bounds out of range".
Definition interface_conversion : string := "interface conversion".

(** [p.f] on a nilable pointer [p]. *)
Definition deref {A} (p : option A) : outcome A :=
  match p with
  | Some a => Ret a
  | None => Panic nil_dereference
  end.

(** [l[i]] on a slice. *)
Definition at_index {A} (l : list A) (i : nat) : outcome A :=
  match l !! i with
  | Some a => Ret a
  | None => Panic index_out_of_range
  end.

(** ** The parts of Go's [strings] package that [main.go] calls *)

Module strings.

Definition len (s : string) : Z := Z.of_nat (String.length s).

(** [s[lo:hi]]: panics unless [0 <= lo <= hi <= len(s)]. *)
Definition slice (s : string) (lo hi : Z) : outcome string :=
  if (0 <=? lo) && (lo <=? hi) && (hi <=? len s)
  then Ret (String.substring (Z.to_nat lo) (Z.to_nat (hi - lo)) s)
  else Panic slice_out_of_range.

Definition HasPrefix (s prefix : string) : bool := String.prefix prefix s.

Definition TrimPrefix (s prefix : string) : string :=
  if HasPrefix s prefix
  then String.substring (String.length prefix) (String.length s - String.length prefix) s
  else s.

(** [strings.Split(s, sep)] for a separator of one byte, the only kind
    [main.go] passes: the pieces between the separators, in order, one
    more than there are separators. *)
Fixpoint Split (s : string) (sep : ascii) : list string :=
  match s with
  | EmptyString => [EmptyString]
  | String c rest =>
      if Ascii.eqb c sep then EmptyString :: Split rest sep
      else match Split rest sep with
           | piece :: pieces => String c piece :: pieces
           | [] => [String c EmptyString]
           end
  end.

(** [strings.ReplaceAll(s, old, new)] for a non-empty [old]: the
    occurrences of [old] are replaced left to right without overlap.
    [skip] counts the bytes of a matched [old] still to be dropped. *)
Fixpoint replace_from (skip : nat) (s old new : string) : string :=
  match s with
  | EmptyString => EmptyString
  | String c rest =>
      match skip with
      | S k => replace_from k rest old new
      | O =>
          if String.prefix old s
          then String.append new (replace_from (String.length old - 1) rest old new)
          else String c (replace_from 0 rest old new)
      end
  end.

Definition ReplaceAll (s old new : string) : string := replace_from 0 s old new.

End strings.

(** ** [snakeString] *)

Definition is_upper (v : ascii) : bool :=
  (N.leb (N_of_ascii "A") (N_of_ascii v)) && (N.leb (N_of_ascii v) (N_of_ascii "Z")).

(** ['a' - 'A'] *)
Definition diff : N := (N_of_ascii "a" - N_of_ascii "A")%N.

(** The loop of [snakeString] over the runes of the replaced string, [i]
    being the index of [v].  The embedding walks bytes: a rune outside
    ASCII is encoded by bytes above 127 only, none of which is in
    ['A'..'Z'], and [WriteRune] writes those bytes back, so that on a
    well-formed UTF-8 name the bytes written are the same. *)
Fixpoint snake_loop (i : nat) (runes : string) : string :=
  match runes with
  | EmptyString => EmptyString
  | String v rest =>
      if is_upper v then
        let lowered := String (ascii_of_N (N_of_ascii v + diff)) (snake_loop (S i) rest) in
        if negb (Nat.eqb i 0) then String "_" lowered else lowered
      else String v (snake_loop (S i) rest)
  end.

Definition snakeString (str : string) : string :=
  snake_loop 0 (strings.ReplaceAll str "ID" "id").

(** ** The syntax trees of [go/ast] that [main.go] inspects

    Only what the program reads is kept.  An identifier that the program
    reads for its name alone ([Field.Names], [SelectorExpr.Sel],
    [FuncDecl.Name]) is that name; [ast.Ident] as an expression keeps its
    [Obj], the declaration the parser resolved it to ([None] for nil). *)

Inductive Expr : Type :=
| Ident (Name : string) (Obj : option Object)
| StarExpr (X : Expr)
| SelectorExpr (X : Expr) (Sel : string)
| StructType (Fields : list Field)
| OtherExpr
with Object : Type :=
| mkObject (Name : string) (Decl : ObjDecl)
with ObjDecl : Type :=
| TypeSpec (Type_ : Expr)
| OtherDecl
with Field : Type :=
| mkField (Names : list string) (Type_ : Expr) (Tag : option string).

Definition Object_Name (o : Object) : string := let 'mkObject n _ := o in n.
Definition Object_Decl (o : Object) : ObjDecl := let 'mkObject _ d := o in d.
Definition Field_Names (f : Field) : list string := let 'mkField ns _ _ := f in ns.
Definition Field_Type (f : Field) : Expr := let 'mkField _ t _ := f in t.
(** [af.Tag]: nil, or the [Value] of the tag literal, quotes included. *)
Definition Field_Tag (f : Field) : option string := let 'mkField _ _ t := f in t.

Record FieldList : Type := { FieldList_List : list Field }.

Record FuncType : Type := {
  Params : option FieldList;
  Results : option FieldList
}.

Record FuncDecl : Type := {
  Recv : option FieldList;
  FuncDecl_Name : string;
  FuncDecl_Type : FuncType
}.

Inductive Decl : Type :=
| DeclFunc (d : FuncDecl)
| DeclOther.

(** A parsed source unit, [*ast.File] when it is not nil: the name of its
    package ([file.Name.Name]) and its top-level declarations. *)
Record File : Type := {
  File_Name : string;
  Decls : list Decl
}.

(** ** The model built for a type *)

Record ModelFieldInfo : Type := {
  Name : string;
  Type_ : string;
  Column : string;
  PrimaryKey : bool;
  Comments : list string
}.

Record ModelInfo : Type := {
  ModelInfo_Name : string;
  Fields : list ModelFieldInfo;
  ModelInfo_Comments : list string
}.

(** The zero value of [ModelFieldInfo]. *)
Definition zeroField : ModelFieldInfo :=
  {| Name := EmptyString; Type_ := EmptyString; Column := EmptyString; PrimaryKey := false; Comments := [] |}.

Definition set_Name (v : string) (f : ModelFieldInfo) : ModelFieldInfo :=
  {| Name := v; Type_ := Type_ f; Column := Column f;
     PrimaryKey := PrimaryKey f; Comments := Comments f |}.
Definition set_Type (v : string) (f : ModelFieldInfo) : ModelFieldInfo :=
  {| Name := Name f; Type_ := v; Column := Column f;
     PrimaryKey := PrimaryKey f; Comments := Comments f |}.
Definition set_Column (v : string) (f : ModelFieldInfo) : ModelFieldInfo :=
  {| Name := Name f; Type_ := Type_ f; Column := v;
     PrimaryKey := PrimaryKey f; Comments := Comments f |}.
Definition set_PrimaryKey (v : bool) (f : ModelFieldInfo) : ModelFieldInfo :=
  {| Name := Name f; Type_ := Type_ f; Column := Column f;
     PrimaryKey := v; Comments := Comments f |}.

Definition _columnPrefix : string := "column:".
Definition _primaryKey1 : string := "primaryKey".
Definition _primaryKey2 : string := "primary_key".
Definition _string : string := "string".

(** ** [reflect.StructTag] and [strconv.Unquote] (Go's standard library) *)

(** [strconv.Unquote] decodes escape sequences and checks UTF-8; that
    decoder is outside the repository and is taken as given for the quoted
    strings that need it. *)
Class Strconv : Type := {
  (** [strconv.Unquote] on a quoted string that holds a backslash, a
      newline or a byte outside ASCII; [None] is a syntax error. *)
  unquote_escaped : string -> option string
}.

Module reflect.

Definition byte_lt (a b : ascii) : bool := N.ltb (N_of_ascii a) (N_of_ascii b).

Definition is_plain (c : ascii) : bool :=
  negb (Ascii.eqb c "\") && negb (Ascii.eqb c "010") && byte_lt c "128".

Fixpoint all_plain (s : string) : bool :=
  match s with
  | EmptyString => true
  | String c rest => is_plain c && all_plain rest
  end.

(** [strconv.Unquote(qvalue)] for a [qvalue] that starts and ends with a
    double quote and has no unescaped double quote in between, as
    [Lookup] passes it: without escapes the text between the quotes. *)
Definition Unquote `{Strconv} (qvalue : string) : option string :=
  let inner := String.substring 1 (String.length qvalue - 2) qvalue in
  if all_plain inner then Some inner else unquote_escaped qvalue.

(** [for i < len(tag) && tag[i] == ' ' { i++ }; tag = tag[i:]] *)
Fixpoint skip_space (tag : string) : string :=
  match tag with
  | String c rest => if Ascii.eqb c " " then skip_space rest else tag
  | EmptyString => EmptyString
  end.

(** The index where the scan to the colon stops. *)
Fixpoint scan_name (tag : string) : nat :=
  match tag with
  | String c rest =>
      if byte_lt " " c && negb (Ascii.eqb c ":") && negb (Ascii.eqb c "034")
         && negb (Ascii.eqb c "127")
      then S (scan_name rest) else O
  | EmptyString => O
  end.

(** The index where the scan of the quoted string stops, [i] being the
    index of the first byte of [rest]: a backslash skips the byte after
    it. *)
Fixpoint scan_quoted (rest : string) (i : nat) : nat :=
  match rest with
  | EmptyString => i
  | String c rest' =>
      if Ascii.eqb c "034" then i
      else if Ascii.eqb c "\" then
        match rest' with
        | EmptyString => i + 2
        | String _ rest'' => scan_quoted rest'' (i + 2)
        end
      else scan_quoted rest' (i + 1)
  end%nat.

Definition from (i : nat) (s : string) : string :=
  String.substring i (String.length s - i) s.

Definition byte_at (s : string) (i : nat) (c : ascii) : bool :=
  match String.get i s with
  | Some c' => Ascii.eqb c' c
  | None => false
  end.

(** The loop over a non-empty [tag] of [StructTag.Lookup]; every round drops at
    least one byte of [tag], and [fuel] bounds the number of rounds. *)
Fixpoint Lookup_loop `{Strconv} (fuel : nat) (tag key : string) : option string :=
  match fuel with
  | O => None
  | S fuel' =>
      if String.eqb tag EmptyString then None else
      let tag := skip_space tag in
      if String.eqb tag EmptyString then None else
      let i := scan_name tag in
      if Nat.eqb i 0 || Nat.leb (String.length tag) (i + 1)
         || negb (byte_at tag i ":") || negb (byte_at tag (i + 1) "034")
      then None else
      let name := String.substring 0 i tag in
      let tag := from (i + 1) tag in
      let i := scan_quoted (from 1 tag) 1 in
      if Nat.leb (String.length tag) i then None else
      let qvalue := String.substring 0 (i + 1) tag in
      let tag := from (i + 1) tag in
      if String.eqb key name then Unquote qvalue
      else Lookup_loop fuel' tag key
  end%nat.

Definition Lookup `{Strconv} (tag key : string) : option string :=
  Lookup_loop (S (String.length tag)) tag key.

(** [tag.Get(key)]: the value, or the empty string. *)
Definition Get `{Strconv} (tag key : string) : string :=
  match Lookup tag key with
  | Some value => value
  | None => EmptyString
  end.

End reflect.

(** ** [buildModelFieldInfo] *)

(** The body of the loop over the tokens of the [gorm] tag. *)
Definition scan_token (field : ModelFieldInfo) (v : string) : ModelFieldInfo :=
  if strings.HasPrefix v _columnPrefix
  then set_Column (strings.TrimPrefix v _columnPrefix) field
  else if String.eqb v _primaryKey1 || String.eqb v _primaryKey2
       then set_PrimaryKey true field
       else field.

(** The loop that unwraps [*ast.StarExpr] and counts the stars. *)
Fixpoint strip_stars (afType : Expr) (starLoop : nat) : Expr * nat :=
  match afType with
  | StarExpr X => strip_stars X (S starLoop)
  | _ => (afType, starLoop)
  end.

(** The deferred loop: one ["*"] in front of [field.Type] per star. *)
Fixpoint add_stars (starLoop : nat) (typ : string) : string :=
  match starLoop with
  | O => typ
  | S n => add_stars n (String.append "*" typ)
  end.

(** Lines 224-242: the name, the column and the primary-key flag. *)
Definition resolve_column `{Strconv} (af : Field) : outcome ModelFieldInfo :=
  name ← at_index (Field_Names af) 0;
  let field := set_Name name zeroField in
  match Field_Tag af with
  | None => Ret (set_Column (snakeString (Name field)) field)
  | Some Value =>
      if String.eqb Value EmptyString then Ret (set_Column (snakeString (Name field)) field)
      else
        tag ← strings.slice Value 1 (strings.len Value - 2);
        let tagValue := reflect.Get tag "gorm" in
        if negb (String.eqb tagValue EmptyString)
        then Ret (fold_left scan_token (strings.Split tagValue ";") field)
        else
          let tagValue := reflect.Get tag "json" in
          if negb (String.eqb tagValue EmptyString)
          then Ret (set_Column tagValue field)
          else Ret (set_Column (snakeString (Name field)) field)
  end.

(** Lines 257-263: the switch on the unwrapped type. *)
Definition resolve_type (afType : Expr) (field : ModelFieldInfo) : outcome ModelFieldInfo :=
  match afType with
  | Ident Name _ => Ret (set_Type Name field)
  | SelectorExpr X Sel =>
      match X with
      | Ident XName _ =>
          Ret (set_Type (String.append XName (String.append "." Sel)) field)
      | _ => Panic interface_conversion
      end
  | _ => Ret field
  end.

Definition buildModelFieldInfo `{Strconv} (af : Field) : outcome ModelFieldInfo :=
  field ← resolve_column af;
  let '(afType, starLoop) := strip_stars (Field_Type af) 0 in
  field ← resolve_type afType field;
  Ret (set_Type (add_stars starLoop (Type_ field)) field).

(** ** Writing tag literals

    The [Value] of a raw-string tag literal: a back quote, the
    [key:"value"] pairs separated by one space, a back quote. *)

Definition dquote : string := String "034" EmptyString.

Definition tag_pair (kv : string * string) : string :=
  String.append (fst kv) (String.append ":" (String.append dquote (String.append (snd kv) dquote))).

Definition tag_literal (pairs : list (string * string)) : string :=
  String.append "`" (String.append (String.concat " " (map tag_pair pairs)) "`").

(** ** [buildModelInfo] *)

(** The field list of the struct type that [obj.Decl] declares; each of
    the two type assertions panics on another kind of node. *)
Definition objFields (obj : Object) : outcome (list Field) :=
  match Object_Decl obj with
  | TypeSpec (StructType fields) => Ret fields
  | _ => Panic interface_conversion
  end.

(** The loop over [objFields].  [mFields] is [m.Fields]; [primaryKey],
    a pointer to an element of [m.Fields], is the index of that element,
    [None] for nil; [f] is [m.Fields[i]] as it has just been written. *)
Fixpoint fields_loop `{Strconv} (i : nat) (objFields : list Field)
    (mFields : list ModelFieldInfo) (primaryKey : option nat)
    : outcome (list ModelFieldInfo * option nat) :=
  match objFields with
  | [] => Ret (mFields, primaryKey)
  | filed :: rest =>
      f ← buildModelFieldInfo filed;
      let mFields := <[i := f]> mFields in
      if PrimaryKey f then fields_loop (S i) rest mFields (Some i)
      else if bool_decide (primaryKey = None) && String.eqb (Column f) "id"
           then fields_loop (S i) rest mFields (Some i)
           else fields_loop (S i) rest mFields primaryKey
  end.

Definition buildModelInfo `{Strconv} (obj : option Object) : outcome ModelInfo :=
  o ← deref obj;
  fs ← objFields o;
  '(mFields, primaryKey) ← fields_loop 0 fs (replicate (length fs) zeroField) None;
  let mFields :=
    match primaryKey with
    | Some p => alter (set_PrimaryKey true) p mFields
    | None => mFields
    end in
  Ret {| ModelInfo_Name := Object_Name o; Fields := mFields; ModelInfo_Comments := [] |}.

(** ** [isTablerFunc] *)

Definition funcName : string := "TableName".

Definition isTablerFunc (decl : FuncDecl) : outcome (option Object * bool) :=
  recv ← deref (Recv decl);
  if Nat.eqb (length (FieldList_List recv)) 0 then Ret (None, false) else
  if negb (String.eqb (FuncDecl_Name decl) funcName) then Ret (None, false) else
  params ← deref (Params (FuncDecl_Type decl));
  if Nat.ltb 0 (length (FieldList_List params)) then Ret (None, false) else
  results ← deref (Results (FuncDecl_Type decl));
  if negb (Nat.eqb (length (FieldList_List results)) 1) then Ret (None, false) else
  result0 ← at_index (FieldList_List results) 0;
  let is_string :=
    match Field_Type result0 with
    | Ident typName _ => String.eqb typName _string
    | _ => false
    end in
  if negb is_string then Ret (None, false) else
  recv0 ← at_index (FieldList_List recv) 0;
  match Field_Type recv0 with
  | StarExpr X =>
      match X with
      | Ident _ Obj => Ret (Obj, true)
      | _ => Ret (None, false)
      end
  | Ident _ Obj => Ret (Obj, true)
  | _ => Ret (None, false)
  end.

(** ** The strategy and the template engine *)

(** A Go [error], by its message. *)
Definition error : Type := string.

(** [html/template], outside the repository.  [any] stands for the
    values a [map[string]interface{}] holds. *)
Class HtmlTemplate : Type := {
  any : Type;
  any_of_string : string -> any;
  Template : Type;
  (** [template.New(...).Parse(text)] *)
  Parse : string -> error + Template;
  (** [t.Execute(&buffer, data)]: the bytes appended to the buffer and
      the error returned; a failing execution may have written a part of
      its output. *)
  Execute : Template -> gmap string any -> list byte * option error
}.

(** The interface [CodeBuilder], implemented by the value of [Build]. *)
Class CodeBuilder `{HtmlTemplate} : Type := {
  BuildTemplateMap : ModelInfo -> gmap string any;
  PackageKey : string;
  HeaderTemplate : string;
  ContentTemplate : string;
  FileMaxSize : Z
}.

(** What [os.Create] and [f.Write] do for the output file of a given
    index; the path of that file is a function of the index. *)
Inductive io_result : Type :=
| io_ok
| io_create_failed (e : error)
| io_write_failed (n : nat) (e : error).

Class FileSystem : Type := {
  write_result : nat -> io_result
}.

(** ** [getModelObjects] *)

(** The package-level [once] and [packageMap]. *)
Record Globals `{HtmlTemplate} : Type := {
  once_done : bool;
  packageMap : gmap string any
}.

Definition once_Do `{HtmlTemplate} (g : Globals) (f : gmap string any -> gmap string any)
    : Globals :=
  if once_done g then g
  else {| once_done := true; packageMap := f (packageMap g) |}.

(** The loop over [file.Decls]. *)
Fixpoint decls_loop (decls : list Decl) (objects : list (option Object))
    : outcome (list (option Object)) :=
  match decls with
  | [] => Ret objects
  | DeclFunc decl :: rest =>
      '(obj, ok) ← isTablerFunc decl;
      if (ok : bool) then decls_loop rest (objects ++ [obj]) else decls_loop rest objects
  | DeclOther :: rest => decls_loop rest objects
  end.

(** The loop over [files]; the globals are returned also when a
    declaration makes the run panic. *)
Fixpoint files_loop `{CodeBuilder} (files : list File) (g : Globals)
    (objects : list (option Object)) : Globals * outcome (list (option Object)) :=
  match files with
  | [] => (g, Ret objects)
  | file :: rest =>
      let g := once_Do g (fun m => <[PackageKey := any_of_string (File_Name file)]> m) in
      match decls_loop (Decls file) objects with
      | Ret objects => files_loop rest g objects
      | Panic msg => (g, Panic msg)
      end
  end.

Definition getModelObjects `{CodeBuilder} (files : list File) (g : Globals)
    : Globals * outcome (list (option Object)) :=
  files_loop files g [].

(** The globals when the program starts. *)
Definition initial_globals `{HtmlTemplate} : Globals :=
  {| once_done := false; packageMap := ∅ |}.

(** ** [generateFile] *)

(** The local variables of [generateFile] that its closures share, and
    the files written so far, oldest first, each with its index and the
    bytes it holds. *)
Record genState : Type := {
  buffer : list byte;
  index : nat;
  setHeader : bool;
  err : option error;
  files : list (nat * list byte)
}.

Definition initial_genState : genState :=
  {| buffer := []; index := 0; setHeader := false; err := None; files := [] |}.

Section generateFile.
Context `{Build : CodeBuilder} `{FileSystem}.
Variable packageMap_ : gmap string any.
Variables hTemplate cTemplate : Template.

(** The closure [setFileHeader]. *)
Definition setFileHeader (st : genState) : genState * option error :=
  let '(out, e) := Execute hTemplate packageMap_ in
  let st := {| buffer := buffer st ++ out; index := index st;
               setHeader := setHeader st; err := err st; files := files st |} in
  match e with
  | Some e => (st, Some e)
  | None =>
      ({| buffer := buffer st; index := index st; setHeader := true;
          err := err st; files := files st |}, None)
  end.

(** The closure [save]. *)
Definition save (st : genState) : genState * option error :=
  match write_result (index st) with
  | io_create_failed e => (st, Some e)
  | io_write_failed n e =>
      ({| buffer := buffer st; index := index st; setHeader := setHeader st;
          err := err st; files := files st ++ [(index st, take n (buffer st))] |},
       Some e)
  | io_ok =>
      ({| buffer := []; index := S (index st); setHeader := false;
          err := err st; files := files st ++ [(index st, buffer st)] |}, None)
  end.

Definition set_err (e : option error) (st : genState) : genState :=
  {| buffer := buffer st; index := index st; setHeader := setHeader st;
     err := e; files := files st |}.

(** The loop over [models]: the state when the loop ends, and the error
    returned from inside the loop if one is. *)
Fixpoint models_loop (models : list ModelInfo) (st : genState)
    : genState * option error :=
  match models with
  | [] => (st, None)
  | v :: rest =>
      let '(st, e) :=
        if negb (setHeader st)
        then let '(st, e) := setFileHeader st in (set_err e st, e)
        else (st, None) in
      match e with
      | Some e => (st, Some e)
      | None =>
          let '(out, e) := Execute cTemplate (BuildTemplateMap v) in
          let st := set_err e
            {| buffer := buffer st ++ out; index := index st;
               setHeader := setHeader st; err := err st; files := files st |} in
          let size := Z.of_nat (length (buffer st)) in
          if size <? FileMaxSize then models_loop rest st
          else
            let '(st, e) := save st in
            let st := set_err e st in
            match e with
            | Some e => (st, Some e)
            | None => models_loop rest st
            end
      end
  end.

End generateFile.

(** [generateFile]: the files written and the error returned. *)
Definition generateFile `{Build : CodeBuilder} `{FileSystem}
    (packageMap_ : gmap string any) (models : list ModelInfo)
    : list (nat * list byte) * option error :=
  match Parse HeaderTemplate with
  | inl e => ([], Some e)
  | inr hTemplate =>
      match Parse ContentTemplate with
      | inl e => ([], Some e)
      | inr cTemplate =>
          let '(st, e) := models_loop packageMap_ hTemplate cTemplate models initial_genState in
          match e with
          | Some e => (files st, Some e)
          | None =>
              if Nat.eqb (length (buffer st)) 0 then (files st, None)
              else let '(st, e) := save st in (files st, e)
          end
      end
  end.

(** ** [getModelFiles] *)

Definition _goFileExt : string := ".go".

Module path.

(** The loop of [path.Ext], from the last byte down: [rev] holds the
    bytes not yet seen, last first, and [suffix] the bytes seen.  A slash
    ends the scan without an extension, a dot ends it with the dot and
    what follows it. *)
Fixpoint ext_scan (rev : list ascii) (suffix : string) : string :=
  match rev with
  | [] => EmptyString
  | c :: rest =>
      if Ascii.eqb c "/" then EmptyString
      else if Ascii.eqb c "." then String "." suffix
      else ext_scan rest (String c suffix)
  end.

Definition Ext (path : string) : string :=
  ext_scan (rev (list_ascii_of_string path)) EmptyString.

End path.

(** An [os.FileInfo], by the two methods that the walk function calls. *)
Record FileInfo : Type := {
  IsDir : bool;
  FileInfo_Name : string
}.

(** One call of the walk function by [filepath.Walk]: the path, and the
    [info], nil when the entry could not be examined.  The third
    argument, the error, is not read. *)
Record WalkCall : Type := {
  filePath : string;
  info : option FileInfo
}.

(** [parser.ParseFile] on a path: the file, nil when the source cannot
    be read; its error is dropped. *)
Class GoParser : Type := {
  ParseFile : string -> option File
}.

(** What the walk has done so far: the paths given to [os.Remove],
    whose error is dropped, and [files]. *)
Record walkState : Type := {
  removed : list string;
  parsed : list (option File)
}.

(** The walk function of [getModelFiles]; it always returns nil, so that
    the walk goes on into every directory. *)
Definition walk_fn `{GoParser} (generateFilePrefix : string) (st : walkState) (call : WalkCall)
    : outcome walkState :=
  i ← deref (info call);
  if IsDir i || negb (String.eqb (path.Ext (FileInfo_Name i)) _goFileExt) then Ret st
  else if strings.HasPrefix (FileInfo_Name i) generateFilePrefix
       then Ret {| removed := removed st ++ [filePath call]; parsed := parsed st |}
       else Ret {| removed := removed st;
                   parsed := parsed st ++ [ParseFile (filePath call)] |}.

Fixpoint walk_loop `{GoParser} (generateFilePrefix : string) (calls : list WalkCall)
    (st : walkState) : outcome walkState :=
  match calls with
  | [] => Ret st
  | call :: rest =>
      st ← walk_fn generateFilePrefix st call;
      walk_loop generateFilePrefix rest st
  end.

(** [getModelFiles], given the calls that [filepath.Walk] makes on
    [modelPath]: the paths removed and the files parsed. *)
Definition getModelFiles `{GoParser} (generateFilePrefix : string) (calls : list WalkCall)
    : outcome walkState :=
  walk_loop generateFilePrefix calls {| removed := []; parsed := [] |}.

(** ** [main] *)

(** [main] after the flags are read and the files are parsed: the objects
    are collected, a model is built for each, the files are generated and
    an error makes the program panic. *)
Definition main `{Strconv} `{Build : CodeBuilder} `{FileSystem} (parsed : list File)
    : outcome (list (nat * list byte)) :=
  let '(g, objects) := getModelObjects parsed initial_globals in
  objects ← objects;
  models ← mapM buildModelInfo objects;
  match generateFile (packageMap g) models with
  | (written, None) => Ret written
  | (_, Some e) => Panic e
  end.

(** ** The snake-case rule in the words of the specification

    "Replace every literal substring ID with lowercase id first; then walk
    characters left to right, and before each uppercase letter that is not
    the first character, insert an underscore; lowercase every letter." *)





(** ** Reading a built model *)

(** The positions of the fields that carry the primary-key flag, in
    declaration order. *)
Fixpoint primary_keys (fs : list ModelFieldInfo) : list nat :=
  match fs with
  | [] => []
  | f :: rest =>
      if PrimaryKey f then O :: map S (primary_keys rest)
      else map S (primary_keys rest)
  end.

(** The position of the first field that satisfies [p]. *)
Fixpoint first_index (p : ModelFieldInfo -> bool) (fs : list ModelFieldInfo) : option nat :=
  match fs with
  | [] => None
  | f :: rest => if p f then Some O else S <$> first_index p rest
  end.

Definition first_flagged (fs : list ModelFieldInfo) : option nat :=
  first_index PrimaryKey fs.

Definition column_is_id (f : ModelFieldInfo) : bool := String.eqb (Column f) "id".

Definition first_id (fs : list ModelFieldInfo) : option nat :=
  first_index column_is_id fs.

(** The value of [primaryKey] after the loop of [buildModelInfo] has
    visited the resolved fields [rs], the first of them at index [i],
    starting from the value [primaryKey]. *)
Fixpoint pointer_after (i : nat) (rs : list ModelFieldInfo) (primaryKey : option nat)
    : option nat :=
  match rs with
  | [] => primaryKey
  | f :: rest =>
      if PrimaryKey f then pointer_after (S i) rest (Some i)
      else if bool_decide (primaryKey = None) && column_is_id f
           then pointer_after (S i) rest (Some i)
           else pointer_after (S i) rest primaryKey
  end.

(** [primaryKey.PrimaryKey = true] when [primaryKey] is not nil. *)
Definition mark_pointer (rs : list ModelFieldInfo) (primaryKey : option nat)
    : list ModelFieldInfo :=
  match primaryKey with
  | Some p => alter (set_PrimaryKey true) p rs
  | None => rs
  end.

(** The column of a resolved field. *)
Definition column_of (r : outcome ModelFieldInfo) : outcome string :=
  field ← r; Ret (Column field).

(** A field type on which the switch of [buildModelFieldInfo] does not
    panic: under its stars, a selector qualifies an identifier, which is
    the only selector that [go/parser] builds for a type. *)
Definition qualified_type (t : Expr) : bool :=
  match fst (strip_stars t 0) with
  | SelectorExpr (Ident _ _) _ => true
  | SelectorExpr _ _ => false
  | _ => true
  end.

(** ** Reading the files of a run *)

(** The content block of a model: the bytes its rendering appends. *)
Definition block `{Build : CodeBuilder} (cTemplate : Template) (v : ModelInfo) : list byte :=
  fst (Execute cTemplate (BuildTemplateMap v)).

(** The buffer after the header, if it is due, and the block of [v]. *)
Definition grown `{Build : CodeBuilder} (cTemplate : Template) (h : list byte)
    (v : ModelInfo) (st : genState) : list byte :=
  (if setHeader st then buffer st else buffer st ++ h) ++ block cTemplate v.


(** The bytes of the file that holds the header [h] and the content
    blocks of the models of [group]. *)
Definition file_of_group (h : list byte) (block : ModelInfo -> list byte)
    (group : list ModelInfo) : list byte :=
  h ++ concat (map block group).

(** Every file but the last one holds at least [maxSize] bytes. *)
Definition all_but_last_full (maxSize : Z) (written : list (nat * list byte)) : Prop :=
  forall i f, written !! i = Some f -> (S i < length written)%nat ->
    maxSize <= Z.of_nat (length (snd f)).

(** The files carry the indices 0, 1, 2, ... in the order they are written. *)
Definition indices_from_zero (written : list (nat * list byte)) : Prop :=
  map fst written = seq 0 (length written).

(** ** Instances for the examples *)

(** No escape sequence is decoded: such a tag value is a syntax error. *)
Definition plain_strconv : Strconv := {| unquote_escaped := fun _ => None |}.

(** A small template engine.  A template is its text.  Executing it
    writes the text byte by byte, except that [$] writes the value the
    data has for the key [Name], and [!] stops the execution with the
    value of the key [fail] as the error when the data has that key. *)
Fixpoint small_execute (t : string) (data : gmap string string) : list byte * option error :=
  match t with
  | EmptyString => ([], None)
  | String c rest =>
      if Ascii.eqb c "!" then
        match data !! "fail" with
        | Some e => ([], Some e)
        | None => small_execute rest data
        end
      else
        let '(out, e) := small_execute rest data in
        if Ascii.eqb c "$"
        then (list_byte_of_string (default EmptyString (data !! "Name")) ++ out, e)
        else (byte_of_ascii c :: out, e)
  end.

Definition small_engine : HtmlTemplate :=
  {| any := string; any_of_string := fun s => s; Template := string;
     Parse := fun text => inr text; Execute := small_execute |}.

(** The data of a model for [small_engine]: its name, and the key
    [fail] for a model without fields. *)
Definition small_data (m : ModelInfo) : gmap string string :=
  let data : gmap string string := {[ "Name" := ModelInfo_Name m ]} in
  match Fields m with
  | [] => <[ "fail" := "index out of range" ]> data
  | _ => data
  end.

(** A strategy for [small_engine]. *)
Definition small_builder (header content : string) (maxSize : Z)
    : @CodeBuilder small_engine :=
  {| BuildTemplateMap := small_data : ModelInfo -> gmap string (@any small_engine);
     PackageKey := "package";
     HeaderTemplate := header;
     ContentTemplate := content;
     FileMaxSize := maxSize |}.

(** Every file is created and written. *)
Definition disk_ok : FileSystem := {| write_result := fun _ => io_ok |}.

Definition field_named (name column : string) (key : bool) : ModelFieldInfo :=
  {| Name := name; Type_ := "string"; Column := column; PrimaryKey := key; Comments := [] |}.

Definition model_named (name : string) : ModelInfo :=
  {| ModelInfo_Name := name; Fields := [field_named "ID" "id" true];
     ModelInfo_Comments := [] |}.

Definition model_without_fields (name : string) : ModelInfo :=
  {| ModelInfo_Name := name; Fields := []; ModelInfo_Comments := [] |}.

(** A struct type with the given fields, as the object of its name. *)
Definition struct_object (name : string) (fields : list Field) : option Object :=
  Some (mkObject name (TypeSpec (StructType fields))).

Definition string_field (name : string) (tag : option string) : Field :=
  mkField [name] (Ident "string" None) tag.

(** Declarations for the examples: a plain function [func helper()], and
    a method [func (u User) TableName()] without a result list. *)
Definition no_fields : FieldList := {| FieldList_List := [] |}.

Definition helper_func : FuncDecl :=
  {| Recv := None; FuncDecl_Name := "helper";
     FuncDecl_Type := {| Params := Some no_fields; Results := None |} |}.

Definition user_receiver : FieldList :=
  {| FieldList_List := [mkField ["u"] (Ident "User" (struct_object "User" [])) None] |}.

Definition tablename_without_result : FuncDecl :=
  {| Recv := Some user_receiver; FuncDecl_Name := "TableName";
     FuncDecl_Type := {| Params := Some no_fields; Results := None |} |}.

Definition tablename_method : FuncDecl :=
  {| Recv := Some user_receiver; FuncDecl_Name := "TableName";
     FuncDecl_Type :=
       {| Params := Some no_fields;
          Results := Some {| FieldList_List := [mkField [] (Ident "string" None) None] |} |} |}.

(** The files written while the loop runs: each holds [maxSize] bytes or
    more, and they carry the indices 0, 1, 2, ... *)
Definition full_files (maxSize : Z) (written : list (nat * list byte)) : Prop :=
  Forall (fun f => maxSize <= Z.of_nat (length (snd f))) written
  /\ map fst written = seq 0 (length written).

(** What holds between two rounds of the loop of [generateFile], [done]
    being the models rendered so far: the files written are the groups of
    [done] that reached the bound, in order, and the buffer holds the
    header and the blocks of the models rendered since the last file. *)
Definition loop_inv `{Build : CodeBuilder} (h : list byte) (cTemplate : Template)
    (done : list ModelInfo) (st : genState) : Prop :=
  full_files FileMaxSize (files st)
  /\ index st = length (files st)
  /\ exists groups pending,
       done = concat groups ++ pending
       /\ Forall (fun g => g <> []) groups
       /\ map snd (files st) = map (file_of_group h (block cTemplate)) groups
       /\ if setHeader st
          then pending <> [] /\ buffer st = file_of_group h (block cTemplate) pending
          else pending = [] /\ buffer st = [].

(** The inputs of the examples of the emission pipeline. *)
Definition five_models : list ModelInfo :=
  [model_named "M001"; model_named "M002"; model_named "M003";
   model_named "M004"; model_named "M005"].

Definition scenario_builder : @CodeBuilder small_engine :=
  small_builder "package m;" "type $ struct { ID string }" 50.

Definition failing_builder : @CodeBuilder small_engine :=
  small_builder "h;" "type $ has !fields;" 100.

Definition silent_builder : @CodeBuilder small_engine :=
  small_builder EmptyString EmptyString 1.

(** The files that the end-to-end scenario of the specification expects. *)
Definition scenario_files : list (nat * list byte) :=
  [(0%nat, list_byte_of_string
             "package m;type M001 struct { ID string }type M002 struct { ID string }");
   (1%nat, list_byte_of_string
             "package m;type M003 struct { ID string }type M004 struct { ID string }");
   (2%nat, list_byte_of_string "package m;type M005 struct { ID string }")].

(** Types for the examples of the model builder.  [keyed_after_id] has
    a field [ID] without a tag and two fields tagged as primary keys;
    [composite_key] has two fields tagged as primary keys. *)
Definition key_tag (column : string) : option string :=
  Some (tag_literal [("gorm", String.append "column:" (String.append column ";primaryKey"));
                     ("json", column)]).

Definition keyed_after_id : list Field :=
  [string_field "ID" None; string_field "Tenant" (key_tag "tenant");
   string_field "Code" (key_tag "code")].

Definition composite_key : list Field :=
  [string_field "Tenant" (key_tag "tenant"); string_field "Code" (key_tag "code");
   string_field "Title" None].

Definition id_only : list Field :=
  [string_field "Title" None; string_field "ID" None; string_field "Id" None].

(** What the resolver gives for the fields of these types. *)
Definition keyed_after_id_resolved : list ModelFieldInfo :=
  [field_named "ID" "id" false; field_named "Tenant" "tenant" true;
   field_named "Code" "code" true].

Definition composite_key_resolved : list ModelFieldInfo :=
  [field_named "Tenant" "tenant" true; field_named "Code" "code" true;
   field_named "Title" "title" false].

Definition id_only_resolved : list ModelFieldInfo :=
  [field_named "Title" "title" false; field_named "ID" "id" false;
   field_named "Id" "id" false].

(** ** Further readers and inputs for the properties of the code *)


(** The number of double quotes in a string. *)
Fixpoint quotes (s : string) : nat :=
  match s with
  | EmptyString => O
  | String c rest => if Ascii.eqb c "034" then S (quotes rest) else quotes rest
  end.

(** A tag value that [strconv.Unquote] returns as it is and in which the
    scan of [Lookup] meets no quote: bytes of ASCII other than the
    backslash, the newline and the double quote. *)
Fixpoint plain_value (s : string) : bool :=
  match s with
  | EmptyString => true
  | String c rest => reflect.is_plain c && negb (Ascii.eqb c "034") && plain_value rest
  end.

(** The tokens [primaryKey] and [primary_key]. *)
Definition is_key_token (v : string) : bool :=
  String.eqb v _primaryKey1 || String.eqb v _primaryKey2.


(** [n] stars around a type. *)
Fixpoint starred (n : nat) (t : Expr) : Expr :=
  match n with
  | O => t
  | S k => StarExpr (starred k t)
  end.

(** [n] times ["*"]. *)
Fixpoint star_prefix (n : nat) : string :=
  match n with
  | O => EmptyString
  | S k => String "*" (star_prefix k)
  end.


(** What the tokens [column:...] of a [gorm] value name, in order. *)
Definition column_values (tokens : list string) : list string :=
  omap (fun v => if strings.HasPrefix v _columnPrefix
                 then Some (strings.TrimPrefix v _columnPrefix) else None) tokens.

(** The text of a field type as the source writes it, for the types that
    are an identifier, a qualified identifier, or pointers to one of
    them; a type of another kind (a slice, a map, an array, a function,
    a struct, a channel, ...) under the stars has the empty text. *)
Fixpoint type_text (t : Expr) : string :=
  match t with
  | StarExpr X => String "*" (type_text X)
  | Ident T _ => T
  | SelectorExpr (Ident P _) Sel => String.append P (String.append "." Sel)
  | _ => EmptyString
  end.


(** The object that a declaration adds to the list of
    [getModelObjects], if it adds one. *)
Definition tabler_object (d : Decl) : option (option Object) :=
  match d with
  | DeclFunc decl =>
      match isTablerFunc decl with
      | Ret (obj, true) => Some obj
      | _ => None
      end
  | DeclOther => None
  end.

(** The declaration makes [isTablerFunc] panic. *)
Definition decl_panics (d : Decl) : bool :=
  match d with
  | DeclFunc decl =>
      match isTablerFunc decl with
      | Panic _ => true
      | Ret _ => false
      end
  | DeclOther => false
  end.

(** The objects of the qualifying methods of [files]: file after file,
    declaration after declaration. *)
Definition tabler_objects (files : list File) : list (option Object) :=
  flat_map (fun file => omap tabler_object (Decls file)) files.

(** No declaration of [files] makes [isTablerFunc] panic. *)
Definition no_decl_panics (files : list File) : Prop :=
  Forall (fun file => Forall (fun d => decl_panics d = false) (Decls file)) files.

(** A method [func (m T) TableName() string] whose receiver type [T] is
    not declared in the file of the method: the identifier has no
    object. *)
Definition unresolved_method (T : string) : FuncDecl :=
  {| Recv := Some {| FieldList_List := [mkField ["m"] (Ident T None) None] |};
     FuncDecl_Name := "TableName";
     FuncDecl_Type :=
       {| Params := Some {| FieldList_List := [] |};
          Results := Some {| FieldList_List := [mkField [] (Ident "string" None) None] |} |} |}.

(** A disk on which the second file cannot be created. *)
Definition second_file_fails : FileSystem :=
  {| write_result := fun i => if Nat.eqb i 1 then io_create_failed "disk full" else io_ok |}.

(** A strategy that asks for files of no size. *)
Definition unbounded_builder : @CodeBuilder small_engine :=
  small_builder "package m;" "type $ struct { ID string }" 0.

(** A strategy whose bound no run of a few models reaches. *)
Definition roomy_builder : @CodeBuilder small_engine :=
  small_builder "package m;" "type $ struct { ID string }" 4096.

(** One when a header is in the buffer, that is when models wait for
    their file. *)
Definition pending_file (st : genState) : nat := if setHeader st then 1 else 0.

(** ** Reading a walk *)

(** The entry is a regular file whose name has the extension [.go]. *)
Definition is_go_file (i : FileInfo) : bool :=
  negb (IsDir i) && String.eqb (path.Ext (FileInfo_Name i)) _goFileExt.

(** The calls of a walk for the Go files that the walk function
    removes, and for those it parses. *)
Definition to_remove (generateFilePrefix : string) (call : WalkCall) : bool :=
  match info call with
  | Some i => is_go_file i && strings.HasPrefix (FileInfo_Name i) generateFilePrefix
  | None => false
  end.

Definition to_parse (generateFilePrefix : string) (call : WalkCall) : bool :=
  match info call with
  | Some i => is_go_file i && negb (strings.HasPrefix (FileInfo_Name i) generateFilePrefix)
  | None => false
  end.

(** A parser for the examples: every file holds the package [model] and
    no declaration. *)
Definition empty_parser : GoParser :=
  {| ParseFile := fun _ => Some {| File_Name := "model"; Decls := [] |} |}.

Definition regular_file (dir name : string) : WalkCall :=
  {| filePath := String.append dir name;
     info := Some {| IsDir := false; FileInfo_Name := name |} |}.

(** ** Conventional tags

    A conventional tag is a sequence of pairs [key:"value"] separated by
    one space, with keys that [Lookup] scans to the colon and values that
    need no escape. *)

(** A byte of a key: above the space, and not the colon, the quote or
    the byte 127. *)
Definition key_byte (c : ascii) : bool :=
  reflect.byte_lt " " c && negb (Ascii.eqb c ":") && negb (Ascii.eqb c "034")
  && negb (Ascii.eqb c "127").

Fixpoint key_bytes (k : string) : bool :=
  match k with
  | EmptyString => true
  | String c rest => key_byte c && key_bytes rest
  end.

Definition conventional_pair (kv : string * string) : bool :=
  negb (String.eqb (fst kv) EmptyString) && key_bytes (fst kv) && plain_value (snd kv).

(** The pairs of a tag, each followed by a space. *)
Fixpoint tag_front (pairs : list (string * string)) : string :=
  match pairs with
  | [] => EmptyString
  | kv :: rest => String.append (tag_pair kv) (String " " (tag_front rest))
  end.

(** The value of the first pair with the key, the empty string when no
    pair has the key. *)
Fixpoint tag_value (pairs : list (string * string)) (key : string) : string :=
  match pairs with
  | [] => EmptyString
  | kv :: rest => if String.eqb key (fst kv) then snd kv else tag_value rest key
  end.

(** The name, the column and the flag that the pairs give to the field
    [name]: the tokens of the [gorm] value if it is not empty, else the
    [json] value if it is not empty, else the snake case of the name. *)
Definition field_of_pairs (name : string) (pairs : list (string * string)) : ModelFieldInfo :=
  if negb (String.eqb (tag_value pairs "gorm") EmptyString)
  then {| Name := name; Type_ := EmptyString;
          Column := default EmptyString
                      (last (column_values (strings.Split (tag_value pairs "gorm") ";")));
          PrimaryKey := existsb is_key_token (strings.Split (tag_value pairs "gorm") ";");
          Comments := [] |}
  else if negb (String.eqb (tag_value pairs "json") EmptyString)
       then {| Name := name; Type_ := EmptyString; Column := tag_value pairs "json";
               PrimaryKey := false; Comments := [] |}
       else {| Name := name; Type_ := EmptyString; Column := snakeString name;
               PrimaryKey := false; Comments := [] |}.

(** * Properties *)

(** ** The library functions on examples *)

Example snakeString_GRID : snakeString "GRID" = "g_rid".
Proof. reflexivity. Qed.

Example Split_tokens :
  strings.Split "column:a;primaryKey;column:b" ";" = ["column:a"; "primaryKey"; "column:b"].
Proof. reflexivity. Qed.

Example TrimPrefix_column : strings.TrimPrefix "column:foo" "column:" = "foo".
Proof. reflexivity. Qed.

Example isTablerFunc_method :
  isTablerFunc tablename_method = Ret (struct_object "User" [], true).
Proof. reflexivity. Qed.

(** ** [snakeString] does what the specification describes *)







(** ** The resolver *)

Lemma resolve_type_total (afType : Expr) (field : ModelFieldInfo) :
  match afType with
  | SelectorExpr (Ident _ _) _ => true
  | SelectorExpr _ _ => false
  | _ => true
  end = true ->
  exists typ, resolve_type afType field = Ret (set_Type typ field).
Proof.
  destruct afType as [n o|X|X Sel|fs|]; cbn; intros Hq.
  - eexists; reflexivity.
  - exists (Type_ field). destruct field; reflexivity.
  - destruct X; try discriminate. eexists; reflexivity.
  - exists (Type_ field). destruct field; reflexivity.
  - exists (Type_ field). destruct field; reflexivity.
Qed.

(** The type switch and the deferred loop write [field.Type] only. *)
Lemma buildModelFieldInfo_resolved `{Strconv} (af : Field) (field : ModelFieldInfo) :
  resolve_column af = Ret field ->
  qualified_type (Field_Type af) = true ->
  exists typ, buildModelFieldInfo af = Ret (set_Type typ field).
Proof.
  intros Hcol Hq. unfold buildModelFieldInfo, qualified_type in *.
  rewrite Hcol. cbn.
  destruct (strip_stars (Field_Type af) 0) as [afType starLoop]. cbn in Hq.
  destruct (resolve_type_total afType field Hq) as [typ ->]. cbn.
  eexists. reflexivity.
Qed.

Lemma resolve_column_untagged `{Strconv} (af : Field) (name : string) (names : list string) :
  Field_Names af = name :: names ->
  Field_Tag af = None \/ Field_Tag af = Some EmptyString ->
  resolve_column af = Ret (set_Column (snakeString name) (set_Name name zeroField)).
Proof.
  intros Hn Ht. unfold resolve_column. rewrite Hn. cbn.
  destruct Ht as [-> | ->]; reflexivity.
Qed.



(** *** The fuel of [Lookup] is enough *)

Lemma substring_length (s : string) :
  forall n m : nat, (String.length (String.substring n m s) <= String.length s - n)%nat.
Proof.
  induction s as [|c s IH]; intros [|n] [|m]; cbn; try lia.
  - specialize (IH 0%nat m). lia.
  - apply IH.
  - apply IH.
Qed.

Lemma from_length (i : nat) (s : string) :
  (String.length (reflect.from i s) <= String.length s - i)%nat.
Proof. apply substring_length. Qed.

Lemma skip_space_length (tag : string) :
  (String.length (reflect.skip_space tag) <= String.length tag)%nat.
Proof.
  induction tag as [|c tag IH]; cbn; [lia|].
  destruct (Ascii.eqb c " "); cbn; lia.
Qed.

(** Any two amounts of fuel above the length of the tag give the same
    result: the loop stops by itself, never for lack of fuel. *)
Lemma Lookup_loop_fuel `{Strconv} (n : nat) :
  forall (m : nat) (tag key : string),
    (String.length tag < n)%nat -> (String.length tag < m)%nat ->
    reflect.Lookup_loop n tag key = reflect.Lookup_loop m tag key.
Proof.
  induction n as [|n IH]; intros m tag key Hn Hm; [lia|].
  destruct m as [|m]; [lia|].
  cbn [reflect.Lookup_loop].
  destruct (String.eqb tag EmptyString); [reflexivity|].
  pose proof (skip_space_length tag) as Hskip.
  destruct (String.eqb_spec (reflect.skip_space tag) EmptyString) as [|Hne]; [reflexivity|].
  set (tag0 := reflect.skip_space tag) in *.
  assert (Hpos : (0 < String.length tag0)%nat) by (destruct tag0; [contradiction | cbn; lia]).
  set (i0 := reflect.scan_name tag0).
  destruct (Nat.eqb i0 0 || Nat.leb (String.length tag0) (i0 + 1)
            || negb (reflect.byte_at tag0 i0 ":")
            || negb (reflect.byte_at tag0 (i0 + 1) "034")); [reflexivity|].
  pose proof (from_length (i0 + 1) tag0) as Hfrom.
  set (tag1 := reflect.from (i0 + 1) tag0) in *.
  set (i1 := reflect.scan_quoted (reflect.from 1 tag1) 1).
  destruct (Nat.leb (String.length tag1) i1); [reflexivity|].
  destruct (String.eqb key (String.substring 0 i0 tag0)); [reflexivity|].
  pose proof (from_length (i1 + 1) tag1) as Hfrom1.
  apply IH; lia.
Qed.

Lemma Lookup_fuel `{Strconv} (fuel : nat) (tag key : string) :
  (String.length tag < fuel)%nat ->
  reflect.Lookup_loop fuel tag key = reflect.Lookup tag key.
Proof. intros Hfuel. unfold reflect.Lookup. apply Lookup_loop_fuel; lia. Qed.

(** *** The loop over the tokens of the [gorm] value *)

Lemma substring_all (s : string) : String.substring 0 (String.length s) s = s.
Proof. induction s as [|c s IH]; cbn; [reflexivity | rewrite IH; reflexivity]. Qed.

Lemma scan_token_column (field : ModelFieldInfo) (foo : string) :
  scan_token field (String.append _columnPrefix foo) = set_Column foo field.
Proof.
  unfold scan_token, strings.HasPrefix, strings.TrimPrefix, strings.HasPrefix.
  assert (Hpre : String.prefix _columnPrefix (String.append _columnPrefix foo) = true)
    by (cbn; destruct foo; reflexivity).
  rewrite Hpre. f_equal. unfold _columnPrefix.
  change (String.substring 0 (String.length foo - 0) foo = foo).
  rewrite Nat.sub_0_r. apply substring_all.
Qed.

Lemma scan_tokens_keep_column (tokens : list string) :
  forall field : ModelFieldInfo,
    Forall (fun v => strings.HasPrefix v _columnPrefix = false) tokens ->
    Column (fold_left scan_token tokens field) = Column field.
Proof.
  induction tokens as [|v tokens IH]; intros field Hno; [reflexivity|].
  apply Forall_cons_1 in Hno as [Hv Hno]. cbn [fold_left].
  rewrite (IH _ Hno). unfold scan_token. rewrite Hv.
  destruct (String.eqb v _primaryKey1 || String.eqb v _primaryKey2); reflexivity.
Qed.

(** The last [column:] token of the [gorm] value gives the column. *)
Lemma scan_tokens_last_column (before after : list string) (foo : string)
    (field : ModelFieldInfo) :
  Forall (fun v => strings.HasPrefix v _columnPrefix = false) after ->
  Column (fold_left scan_token (before ++ String.append _columnPrefix foo :: after) field)
  = foo.
Proof.
  intros Hafter. rewrite fold_left_app. cbn [fold_left].
  rewrite (scan_tokens_keep_column after _ Hafter), scan_token_column. reflexivity.
Qed.

(** C4. The field [Name string] with the tag [gorm:"column:foo"] and no
    other key: the slice of line 228 drops the closing quote, the tag has
    no value for [gorm] any more, and the column is the snake case of the
    field name, not [foo]. *)
Theorem C4_sole_gorm_column_is_lost `{Strconv} :
  strings.slice (tag_literal [("gorm", "column:foo")]) 1
      (strings.len (tag_literal [("gorm", "column:foo")]) - 2)
    = Ret (String.append "gorm:" (String.append dquote "column:foo"))
  /\ reflect.Get (String.append "gorm:" (String.append dquote "column:foo")) "gorm" = EmptyString
  /\ buildModelFieldInfo (string_field "Name" (Some (tag_literal [("gorm", "column:foo")])))
     = Ret {| Name := "Name"; Type_ := "string"; Column := "name";
              PrimaryKey := false; Comments := [] |}.
Proof. repeat split; reflexivity. Qed.

(** The loop over the tokens does take the last [column:] token: with a
    second key behind [gorm] the column is the one the tag names. *)
Example gorm_column_before_json `{Strconv} :
  column_of (buildModelFieldInfo
    (string_field "Name" (Some (tag_literal [("gorm", "column:foo;column:bar"); ("json", "n")]))))
  = Ret "bar".
Proof. reflexivity. Qed.

(** C6. The field [ID string] with the tag [gorm:"primaryKey" json:"id"]:
    the [gorm] value has no [column:] token and the column stays empty. *)
Theorem C6_gorm_without_column_is_empty `{Strconv} :
  buildModelFieldInfo
    (string_field "ID" (Some (tag_literal [("gorm", "primaryKey"); ("json", "id")])))
  = Ret {| Name := "ID"; Type_ := "string"; Column := EmptyString;
           PrimaryKey := true; Comments := [] |}.
Proof. reflexivity. Qed.

(** ** The classifier *)

(** C10. [isTablerFunc] dereferences [decl.Recv], nil for a plain
    function, and [decl.Type.Results], nil for a method without a result
    list: both declarations make it panic, and a file that holds the
    plain function makes [getModelObjects] panic. *)
Theorem C10_plain_function_panics `{CodeBuilder} :
  isTablerFunc helper_func = Panic nil_dereference
  /\ isTablerFunc tablename_without_result = Panic nil_dereference
  /\ snd (getModelObjects [{| File_Name := "model"; Decls := [DeclFunc helper_func] |}]
            initial_globals) = Panic nil_dereference.
Proof. repeat split; reflexivity. Qed.

(** ** The generation context *)

Section context_latch.
Context `{Build : CodeBuilder}.



End context_latch.

(** ** The emission pipeline *)

Section emission.
Context `{Build : CodeBuilder} `{Disk : FileSystem}.
Variable packageMap_ : gmap string any.
Variables hTemplate cTemplate : Template.

(** One round of the loop that stays below the bound. *)
Lemma models_loop_keep (h : list byte) (v : ModelInfo) (rest : list ModelInfo) (st : genState) :
  Execute hTemplate packageMap_ = (h, None) ->
  Z.of_nat (length (grown cTemplate h v st)) < FileMaxSize ->
  models_loop packageMap_ hTemplate cTemplate (v :: rest) st
  = models_loop packageMap_ hTemplate cTemplate rest
      {| buffer := grown cTemplate h v st; index := index st; setHeader := true;
         err := snd (Execute cTemplate (BuildTemplateMap v)); files := files st |}.
Proof.
  intros Hh Hlt. unfold grown, block in *. cbn [models_loop].
  destruct (setHeader st) eqn:Hs; cbn [negb].
  - destruct (Execute cTemplate (BuildTemplateMap v)) as [out e]. cbn in *.
    apply Z.ltb_lt in Hlt. rewrite Hlt. rewrite Hs. reflexivity.
  - unfold setFileHeader. rewrite Hh. cbn.
    destruct (Execute cTemplate (BuildTemplateMap v)) as [out e]. cbn in *.
    apply Z.ltb_lt in Hlt. rewrite Hlt. reflexivity.
Qed.

(** One round of the loop that reaches the bound and writes a file. *)
Lemma models_loop_flush (h : list byte) (v : ModelInfo) (rest : list ModelInfo) (st : genState) :
  Execute hTemplate packageMap_ = (h, None) ->
  FileMaxSize <= Z.of_nat (length (grown cTemplate h v st)) ->
  write_result (index st) = io_ok ->
  models_loop packageMap_ hTemplate cTemplate (v :: rest) st
  = models_loop packageMap_ hTemplate cTemplate rest
      {| buffer := []; index := S (index st); setHeader := false;
         err := None; files := files st ++ [(index st, grown cTemplate h v st)] |}.
Proof.
  intros Hh Hge Hio. unfold grown, block in *. cbn [models_loop].
  destruct (setHeader st) eqn:Hs; cbn [negb].
  - destruct (Execute cTemplate (BuildTemplateMap v)) as [out e]. cbn in *.
    apply Z.ltb_ge in Hge. rewrite Hge. unfold save. cbn. rewrite Hio. reflexivity.
  - unfold setFileHeader. rewrite Hh. cbn.
    destruct (Execute cTemplate (BuildTemplateMap v)) as [out e]. cbn in *.
    apply Z.ltb_ge in Hge. rewrite Hge. unfold save. cbn. rewrite Hio. reflexivity.
Qed.

(** C8. Five models, each with a content block of 30 bytes, a header of
    10 bytes and a bound of 50 bytes: three files are written, file 0
    with the header and the blocks of models 1 and 2 (70 bytes), file 1
    with the header and the blocks of models 3 and 4 (70 bytes), file 2
    with the header and the block of model 5 (40 bytes). *)
Theorem C8_five_models_three_files (h : list byte) (m1 m2 m3 m4 m5 : ModelInfo) :
  Parse HeaderTemplate = inr hTemplate ->
  Parse ContentTemplate = inr cTemplate ->
  Execute hTemplate packageMap_ = (h, None) ->
  length h = 10%nat ->
  Forall (fun m => length (block cTemplate m) = 30%nat) [m1; m2; m3; m4; m5] ->
  FileMaxSize = 50 ->
  (forall i, write_result i = io_ok) ->
  generateFile packageMap_ [m1; m2; m3; m4; m5]
    = ([(0%nat, h ++ block cTemplate m1 ++ block cTemplate m2);
        (1%nat, h ++ block cTemplate m3 ++ block cTemplate m4);
        (2%nat, h ++ block cTemplate m5)], None)
  /\ length (h ++ block cTemplate m1 ++ block cTemplate m2) = 70%nat
  /\ length (h ++ block cTemplate m3 ++ block cTemplate m4) = 70%nat
  /\ length (h ++ block cTemplate m5) = 40%nat.
Proof.
  intros HpH HpC Hh Hlen Hblocks Hmax Hio.
  repeat (apply Forall_cons_1 in Hblocks as [? Hblocks]).
  split; [|rewrite !length_app; lia].
  unfold generateFile. rewrite HpH, HpC.
  rewrite (models_loop_keep h) by (try exact Hh; unfold grown; cbn; rewrite !length_app; lia).
  rewrite (models_loop_flush h) by (try exact Hh; try apply Hio; unfold grown; cbn; rewrite !length_app; lia).
  rewrite (models_loop_keep h) by (try exact Hh; unfold grown; cbn; rewrite !length_app; lia).
  rewrite (models_loop_flush h) by (try exact Hh; try apply Hio; unfold grown; cbn; rewrite !length_app; lia).
  rewrite (models_loop_keep h) by (try exact Hh; unfold grown; cbn; rewrite !length_app; lia).
  cbn [models_loop]. unfold grown. cbn [buffer setHeader app initial_genState].
  destruct (Nat.eqb_spec (length (h ++ block cTemplate m5)) 0) as [E|_].
  - rewrite length_app in E. lia.
  - unfold save. cbn. rewrite Hio. cbn. rewrite <- !app_assoc. reflexivity.
Qed.

End emission.

Lemma C8_witness :
  @generateFile small_engine scenario_builder disk_ok ∅ five_models = (scenario_files, None).
Proof.
  refine (proj1 (@C8_five_models_three_files small_engine scenario_builder disk_ok ∅
    "package m;"%string "type $ struct { ID string }"%string
    (list_byte_of_string "package m;")
    (model_named "M001") (model_named "M002") (model_named "M003")
    (model_named "M004") (model_named "M005")
    eq_refl eq_refl eq_refl eq_refl _ eq_refl (fun _ => eq_refl))).
  repeat constructor.
Defined.

(** An error that the loop of [generateFile] returns comes from the
    header or from a file: none comes from the rendering of a content
    block. *)
Lemma models_loop_error_origin `{Build : CodeBuilder} `{Disk : FileSystem}
    (packageMap_ : gmap string any) (hTemplate cTemplate : Template)
    (models : list ModelInfo) :
  forall (st st' : genState) (e : error),
    models_loop packageMap_ hTemplate cTemplate models st = (st', Some e) ->
    snd (Execute hTemplate packageMap_) = Some e
    \/ exists i, write_result i = io_create_failed e
                 \/ exists n, write_result i = io_write_failed n e.
Proof.
  induction models as [|v rest IH]; intros st st' e Hrun; [discriminate|].
  cbn [models_loop] in Hrun.
  destruct (setHeader st); cbn [negb] in Hrun.
  - destruct (Execute cTemplate (BuildTemplateMap v)) as [out e0].
    destruct (_ <? _); [exact (IH _ _ _ Hrun)|].
    unfold save in Hrun. cbn in Hrun.
    destruct (write_result (index st)) as [|eio|n eio] eqn:Hio.
    + exact (IH _ _ _ Hrun).
    + injection Hrun as _ <-. right. exists (index st). left. exact Hio.
    + injection Hrun as _ <-. right. exists (index st). right. exists n. exact Hio.
  - unfold setFileHeader in Hrun.
    destruct (Execute hTemplate packageMap_) as [hout [he|]]; cbn in Hrun.
    + injection Hrun as _ <-. left. reflexivity.
    + destruct (Execute cTemplate (BuildTemplateMap v)) as [out e0].
      destruct (_ <? _); [exact (IH _ _ _ Hrun)|].
      unfold save in Hrun. cbn in Hrun.
      destruct (write_result (index st)) as [|eio|n eio] eqn:Hio.
      * exact (IH _ _ _ Hrun).
      * injection Hrun as _ <-. right. exists (index st). left. exact Hio.
      * injection Hrun as _ <-. right. exists (index st). right. exists n. exact Hio.
Qed.

(** C3. Two models, the first without fields: rendering its content block
    writes [type A has ] and fails.  [generateFile] keeps the bytes,
    renders the second model, writes one file and returns no error. *)
Theorem C3_render_error_is_dropped :
  @Execute small_engine "type $ has !fields;"%string (small_data (model_without_fields "A"))
    = (list_byte_of_string "type A has ", Some "index out of range"%string)
  /\ @generateFile small_engine failing_builder disk_ok ∅
       [model_without_fields "A"; model_named "B"]
     = ([(0%nat, list_byte_of_string "h;type A has type B has fields;")], None).
Proof. split; reflexivity. Qed.

(** ** The files of a run are the groups that reached the bound *)

Lemma full_files_all_but_last (maxSize : Z) (written : list (nat * list byte)) :
  full_files maxSize written ->
  all_but_last_full maxSize written /\ indices_from_zero written.
Proof.
  intros [Hfull Hidx]. split; [|exact Hidx].
  intros i f Hi _. exact (Forall_lookup_1 _ _ _ _ Hfull Hi).
Qed.

Lemma full_files_then_one (maxSize : Z) (written : list (nat * list byte)) (bytes : list byte) :
  full_files maxSize written ->
  all_but_last_full maxSize (written ++ [(length written, bytes)])
  /\ indices_from_zero (written ++ [(length written, bytes)]).
Proof.
  intros [Hfull Hidx]. split.
  - intros i f Hi Hlt. rewrite length_app in Hlt. cbn in Hlt.
    rewrite lookup_app_l in Hi by lia.
    exact (Forall_lookup_1 _ _ _ _ Hfull Hi).
  - unfold indices_from_zero. rewrite map_app, length_app. cbn.
    rewrite Nat.add_1_r, seq_S, Hidx. reflexivity.
Qed.

Lemma full_files_snoc (maxSize : Z) (written : list (nat * list byte)) (bytes : list byte) :
  full_files maxSize written ->
  maxSize <= Z.of_nat (length bytes) ->
  full_files maxSize (written ++ [(length written, bytes)]).
Proof.
  intros [Hfull Hidx] Hge. split.
  - apply Forall_app. split; [exact Hfull|]. repeat constructor. exact Hge.
  - rewrite map_app, length_app. cbn. rewrite Nat.add_1_r, seq_S, Hidx. reflexivity.
Qed.

Lemma file_of_group_snoc (h : list byte) (blk : ModelInfo -> list byte)
    (group : list ModelInfo) (v : ModelInfo) :
  file_of_group h blk (group ++ [v]) = file_of_group h blk group ++ blk v.
Proof.
  unfold file_of_group. rewrite map_app, concat_app. cbn.
  rewrite app_nil_r, app_assoc. reflexivity.
Qed.

Section emission_invariant.
Context `{Build : CodeBuilder} `{Disk : FileSystem}.
Variable packageMap_ : gmap string any.
Variables hTemplate cTemplate : Template.

(** The bytes that rendering the header appends. *)
Variable h : list byte.
Hypothesis header_bytes : h = fst (Execute hTemplate packageMap_).

(** The state after the header, if it is due, and the block of [v], when
    the header renders without error. *)
Lemma loop_inv_grown (done : list ModelInfo) (st : genState) (v : ModelInfo) :
  loop_inv h cTemplate done st ->
  exists groups pending,
    done ++ [v] = concat groups ++ pending
    /\ Forall (fun g => g <> []) groups
    /\ map snd (files st) = map (file_of_group h (block cTemplate)) groups
    /\ pending <> []
    /\ grown cTemplate h v st = file_of_group h (block cTemplate) pending.
Proof.
  intros (_ & _ & groups & pending & Hdone & Hne & Hfiles & Hbuf).
  exists groups, (pending ++ [v]). unfold grown.
  repeat split; try assumption.
  - rewrite Hdone, app_assoc. reflexivity.
  - destruct pending; discriminate.
  - rewrite file_of_group_snoc. destruct (setHeader st).
    + destruct Hbuf as [_ ->]. reflexivity.
    + destruct Hbuf as [-> ->]. unfold file_of_group. cbn.
      rewrite app_nil_r. reflexivity.
Qed.

(** The first part of a round: the header is rendered when it is due. *)
Lemma header_step (st : genState) :
  match (if negb (setHeader st)
         then let '(st, e) := setFileHeader packageMap_ hTemplate st in (set_err e st, e)
         else (st, None)) with
  | (st1, Some _) => files st1 = files st
  | (st1, None) =>
      files st1 = files st /\ index st1 = index st /\ setHeader st1 = true
      /\ buffer st1 = if setHeader st then buffer st else buffer st ++ h
  end.
Proof.
  destruct (setHeader st) eqn:Hs; cbn [negb]; [rewrite Hs; auto|].
  unfold setFileHeader. rewrite header_bytes.
  destruct (Execute hTemplate packageMap_) as [out [e|]]; cbn; auto.
Qed.

Lemma models_loop_inv (models : list ModelInfo) :
  forall (done : list ModelInfo) (st st' : genState) (e : option error),
    loop_inv h cTemplate done st ->
    models_loop packageMap_ hTemplate cTemplate models st = (st', e) ->
    (all_but_last_full FileMaxSize (files st') /\ indices_from_zero (files st'))
    /\ (e = None -> loop_inv h cTemplate (done ++ models) st').
Proof.
  induction models as [|v rest IH]; intros done st st' e Hinv Hrun.
  - cbn in Hrun. injection Hrun as <- <-. split.
    + apply full_files_all_but_last. apply Hinv.
    + intros _. rewrite app_nil_r. exact Hinv.
  - pose proof (loop_inv_grown done st v Hinv)
      as (groups & pending & Hdone & Hne & Hfiles & Hpending & Hbuf).
    pose proof Hinv as (Hfull & Hindex & _).
    cbn [models_loop] in Hrun.
    pose proof (header_step st) as Hhdr.
    destruct (if negb (setHeader st)
              then let '(st, e) := setFileHeader packageMap_ hTemplate st in (set_err e st, e)
              else (st, None)) as [st1 [e1|]].
    + (* the header does not render *)
      injection Hrun as <- <-. split; [|discriminate].
      rewrite Hhdr. apply full_files_all_but_last, Hfull.
    + destruct Hhdr as (Hf1 & Hi1 & Hs1 & Hb1).
      unfold grown in Hbuf. rewrite <- Hb1 in Hbuf.
      change (block cTemplate v) with (fst (Execute cTemplate (BuildTemplateMap v))) in Hbuf.
      destruct (Execute cTemplate (BuildTemplateMap v)) as [out e0]. cbn in Hbuf, Hrun.
      replace (done ++ v :: rest) with ((done ++ [v]) ++ rest)
        by (rewrite <- app_assoc; reflexivity).
      destruct (Z.ltb_spec (Z.of_nat (length (buffer st1 ++ out))) FileMaxSize) as [Hlt|Hge].
      * (* the buffer stays below the bound *)
        refine (IH _ _ _ _ _ Hrun).
        split; [|split]; cbn; [rewrite Hf1; exact Hfull | congruence |].
        exists groups, pending. rewrite Hf1, Hs1. auto.
      * (* the buffer is written *)
        unfold save in Hrun. cbn in Hrun. rewrite Hi1, Hindex, Hf1 in Hrun.
        destruct (write_result (length (files st))) as [|eio|n eio].
        -- refine (IH _ _ _ _ _ Hrun).
           split; [|split]; cbn.
           ++ apply full_files_snoc; [exact Hfull | exact Hge].
           ++ rewrite length_app. cbn. lia.
           ++ exists (groups ++ [pending]), []. repeat split.
              ** rewrite concat_app. cbn. rewrite !app_nil_r. exact Hdone.
              ** apply Forall_app. split; [exact Hne|]. repeat constructor. exact Hpending.
              ** rewrite !map_app. cbn. rewrite Hfiles, Hbuf. reflexivity.
        -- injection Hrun as <- <-. split; [|discriminate]. cbn.
           apply full_files_all_but_last, Hfull.
        -- injection Hrun as <- <-. split; [|discriminate]. cbn.
           apply full_files_then_one, Hfull.
Qed.

End emission_invariant.

(** C2, as the code has it.  Whatever the run returns, every file but
    the last one written holds at least [FileMaxSize] bytes and the files
    carry the indices 0, 1, 2, ... in the order they are written.  When
    the run returns no error, the models split into consecutive non-empty
    groups and a rest: the files are, in order, one per group, the header
    followed by the whole content blocks of the models of the group; the
    rest is empty, or the header and the blocks of its models are all
    empty, in which case no file is written for it. *)
Theorem C2_files_are_full_groups `{Build : CodeBuilder} `{Disk : FileSystem}
    (packageMap_ : gmap string any) (models : list ModelInfo)
    (written : list (nat * list byte)) (e : option error) :
  generateFile packageMap_ models = (written, e) ->
  all_but_last_full FileMaxSize written
  /\ indices_from_zero written
  /\ (e = None ->
      exists hTemplate cTemplate groups rest,
        Parse HeaderTemplate = inr hTemplate
        /\ Parse ContentTemplate = inr cTemplate
        /\ models = concat groups ++ rest
        /\ Forall (fun g => g <> []) groups
        /\ map snd written
           = map (file_of_group (fst (Execute hTemplate packageMap_)) (block cTemplate)) groups
        /\ (rest = []
            \/ file_of_group (fst (Execute hTemplate packageMap_)) (block cTemplate) rest = [])).
Proof.
  unfold generateFile. intros Hrun.
  assert (Hnone : all_but_last_full FileMaxSize [] /\ indices_from_zero []).
  { split; [intros i f Hi; discriminate | reflexivity]. }
  destruct (Parse HeaderTemplate) as [eh|hTemplate].
  { injection Hrun as <- <-. destruct Hnone. repeat split; [assumption..|discriminate]. }
  destruct (Parse ContentTemplate) as [ec|cTemplate].
  { injection Hrun as <- <-. destruct Hnone. repeat split; [assumption..|discriminate]. }
  destruct (models_loop packageMap_ hTemplate cTemplate models initial_genState)
    as [st e0] eqn:Hloop.
  apply (models_loop_inv packageMap_ hTemplate cTemplate _ eq_refl models []) in Hloop.
  2:{ split; [split; [constructor | reflexivity] | split; [reflexivity|]].
      exists [], []. cbn. auto. }
  destruct Hloop as [[Hfull Hidx] Hinv].
  destruct e0 as [e0|].
  { injection Hrun as <- <-. repeat split; [assumption..|discriminate]. }
  destruct (Hinv eq_refl) as (Hfiles & Hindex & groups & pending & Hdone & Hne & Hmap & Hbuf).
  cbn in Hdone.
  destruct (Nat.eqb_spec (length (buffer st)) 0) as [Hempty|Hfilled].
  - injection Hrun as <- <-. repeat split; [assumption..|]. intros _.
    exists hTemplate, cTemplate, groups, pending. repeat split; try assumption.
    destruct (setHeader st).
    + right. destruct Hbuf as [_ <-]. apply length_zero_iff_nil. exact Hempty.
    + left. apply Hbuf.
  - unfold save in Hrun. rewrite Hindex in Hrun.
    destruct (write_result (length (files st))) as [|eio|n eio].
    + injection Hrun as <- <-.
      destruct (full_files_then_one _ _ (buffer st) Hfiles). repeat split; [assumption..|].
      intros _. exists hTemplate, cTemplate, (groups ++ [pending]), [].
      destruct (setHeader st).
      * destruct Hbuf as [Hpending Hbuf]. repeat split.
        -- rewrite concat_app. cbn. rewrite !app_nil_r. exact Hdone.
        -- apply Forall_app. split; [exact Hne|]. repeat constructor. exact Hpending.
        -- rewrite !map_app. cbn. rewrite Hmap, Hbuf. reflexivity.
        -- left. reflexivity.
      * destruct Hbuf as [_ Hbuf]. rewrite Hbuf in Hfilled. contradiction.
    + injection Hrun as <- <-. repeat split; [assumption..|discriminate].
    + injection Hrun as <- <-.
      destruct (full_files_then_one _ _ (take n (buffer st)) Hfiles).
      repeat split; [assumption..|discriminate].
Qed.

Lemma C2_witness : all_but_last_full 50 scenario_files /\ indices_from_zero scenario_files.
Proof.
  assert (Hrun : @generateFile small_engine scenario_builder disk_ok ∅ five_models
                 = (scenario_files, None)) by (vm_compute; reflexivity).
  pose proof (@C2_files_are_full_groups small_engine scenario_builder disk_ok ∅
                five_models scenario_files None Hrun) as (Hfull & Hidx & _).
  split; [exact Hfull | exact Hidx].
Defined.

(** C2 as it is stated fails: with a header template and a content
    template that render to nothing and a bound of one byte, the run over
    one model returns no error and writes no file, so that the model is in
    the content block of no file. *)
Lemma C2_counterexample :
  @generateFile small_engine silent_builder disk_ok ∅ [model_named "User"] = ([], None)
  /\ ~ (exists groups : list (list ModelInfo),
          concat groups = [model_named "User"]
          /\ map snd ([] : list (nat * list byte))
             = map (file_of_group [] (@block small_engine silent_builder EmptyString)) groups).
Proof.
  split; [vm_compute; reflexivity|].
  intros (groups & Hall & Hfiles).
  destruct groups; [discriminate Hall | discriminate Hfiles].
Qed.

(** ** The model builder *)

Lemma insert_middle (pre suf : list ModelFieldInfo) (old new : ModelFieldInfo) :
  <[length pre := new]> (pre ++ old :: suf) = pre ++ new :: suf.
Proof. induction pre as [|x pre IH]; cbn; [reflexivity | f_equal; exact IH]. Qed.

Lemma mapM_cons_Ret `{Strconv} (af : Field) (fs : list Field) (rs : list ModelFieldInfo) :
  mapM buildModelFieldInfo (af :: fs) = Ret rs ->
  exists r rs', buildModelFieldInfo af = Ret r
                /\ mapM buildModelFieldInfo fs = Ret rs' /\ rs = r :: rs'.
Proof.
  cbn. destruct (buildModelFieldInfo af) as [r|]; cbn; [|discriminate].
  destruct (mapM buildModelFieldInfo fs) as [rs'|]; cbn; [|discriminate].
  intros [= <-]. eauto.
Qed.

(** The loop resolves the fields one by one and moves [primaryKey] as
    [pointer_after] tells. *)
Lemma fields_loop_spec `{Strconv} (fs : list Field) :
  forall (rs pre suf : list ModelFieldInfo) (primaryKey : option nat),
    mapM buildModelFieldInfo fs = Ret rs ->
    length suf = length fs ->
    fields_loop (length pre) fs (pre ++ suf) primaryKey
    = Ret (pre ++ rs, pointer_after (length pre) rs primaryKey).
Proof.
  induction fs as [|af fs IH]; intros rs pre suf primaryKey Hrs Hlen.
  - cbn in Hrs. injection Hrs as <-. destruct suf; [|discriminate]. reflexivity.
  - apply mapM_cons_Ret in Hrs as (r & rs' & Hr & Hrs' & ->).
    destruct suf as [|old suf]; [discriminate|]. injection Hlen as Hlen.
    cbn [fields_loop pointer_after]. rewrite Hr. cbn.
    rewrite insert_middle.
    replace (pre ++ r :: suf) with ((pre ++ [r]) ++ suf) by (rewrite <- app_assoc; reflexivity).
    replace (pre ++ r :: rs') with ((pre ++ [r]) ++ rs') by (rewrite <- app_assoc; reflexivity).
    replace (S (length pre)) with (length (pre ++ [r])) by (rewrite length_app; cbn; lia).
    unfold column_is_id.
    destruct (PrimaryKey r); [apply IH; assumption|].
    destruct (bool_decide (primaryKey = None) && String.eqb (Column r) "id");
      apply IH; assumption.
Qed.

(** The model built from a struct whose fields all resolve. *)
Lemma buildModelInfo_fields `{Strconv} (o : Object) (fs : list Field) (rs : list ModelFieldInfo) :
  objFields o = Ret fs ->
  mapM buildModelFieldInfo fs = Ret rs ->
  buildModelInfo (Some o)
  = Ret {| ModelInfo_Name := Object_Name o;
           Fields := mark_pointer rs (pointer_after 0 rs None);
           ModelInfo_Comments := [] |}.
Proof.
  intros Hfs Hrs.
  pose proof (fields_loop_spec fs rs [] (replicate (length fs) zeroField) None Hrs
                (length_replicate _ _)) as Hloop.
  cbn [length app] in Hloop.
  unfold buildModelInfo. cbn. rewrite Hfs. cbn. rewrite Hloop. cbn.
  destruct (pointer_after 0 rs None); reflexivity.
Qed.

Lemma pointer_after_kept (rs : list ModelFieldInfo) :
  forall (i q : nat),
    existsb PrimaryKey rs = false -> pointer_after i rs (Some q) = Some q.
Proof.
  induction rs as [|f rest IH]; intros i q Hno; [reflexivity|].
  cbn in *. apply orb_false_iff in Hno as [-> Hno]. cbn. apply IH, Hno.
Qed.

(** With a flagged field, [primaryKey] ends on a flagged field. *)
Lemma pointer_after_flagged (rs : list ModelFieldInfo) :
  forall (i : nat) (primaryKey : option nat),
    existsb PrimaryKey rs = true ->
    exists p f, pointer_after i rs primaryKey = Some (i + p)%nat
                /\ rs !! p = Some f /\ PrimaryKey f = true.
Proof.
  induction rs as [|f rest IH]; intros i primaryKey Hsome; [discriminate|].
  cbn [pointer_after]. cbn in Hsome.
  destruct (PrimaryKey f) eqn:Hf.
  - destruct (existsb PrimaryKey rest) eqn:Hrest.
    + destruct (IH (S i) (Some i) eq_refl) as (p & g & Hp & Hg & Hpk).
      exists (S p), g. rewrite Hp. repeat split; [f_equal; lia | assumption..].
    + exists O, f. rewrite pointer_after_kept by assumption.
      repeat split; [f_equal; lia | assumption].
  - cbn in Hsome.
    destruct (bool_decide (primaryKey = None) && column_is_id f).
    + destruct (IH (S i) (Some i) Hsome) as (p & g & Hp & Hg & Hpk).
      exists (S p), g. rewrite Hp. repeat split; [f_equal; lia | assumption..].
    + destruct (IH (S i) primaryKey Hsome) as (p & g & Hp & Hg & Hpk).
      exists (S p), g. rewrite Hp. repeat split; [f_equal; lia | assumption..].
Qed.

(** Without a flagged field, [primaryKey] ends on the first field whose
    column is [id]. *)
Lemma pointer_after_unflagged (rs : list ModelFieldInfo) :
  forall (i : nat),
    existsb PrimaryKey rs = false ->
    pointer_after i rs None = (fun q => (i + q)%nat) <$> first_index column_is_id rs.
Proof.
  induction rs as [|f rest IH]; intros i Hno; [reflexivity|].
  cbn in *. apply orb_false_iff in Hno as [-> Hno]. cbn.
  destruct (column_is_id f).
  - rewrite pointer_after_kept by assumption. cbn. f_equal. lia.
  - rewrite IH by assumption. destruct (first_index column_is_id rest); cbn; [|reflexivity].
    f_equal. lia.
Qed.

Lemma alter_flagged (rs : list ModelFieldInfo) :
  forall (p : nat) (f : ModelFieldInfo),
    rs !! p = Some f -> PrimaryKey f = true ->
    alter (set_PrimaryKey true) p rs = rs.
Proof.
  induction rs as [|g rest IH]; intros p f Hp Hf; [reflexivity|].
  destruct p as [|p]; cbn in *.
  - injection Hp as ->. destruct f; cbn in *; subst; reflexivity.
  - f_equal. exact (IH p f Hp Hf).
Qed.

Lemma first_flagged_exists (rs : list ModelFieldInfo) :
  existsb PrimaryKey rs = bool_decide (first_flagged rs <> None).
Proof.
  unfold first_flagged. induction rs as [|f rest IH]; [reflexivity|].
  cbn. destruct (PrimaryKey f); cbn; [reflexivity|].
  rewrite IH. destruct (first_index PrimaryKey rest); reflexivity.
Qed.

Lemma head_primary_keys (rs : list ModelFieldInfo) :
  head (primary_keys rs) = first_flagged rs.
Proof.
  unfold first_flagged. induction rs as [|f rest IH]; [reflexivity|].
  cbn. destruct (PrimaryKey f); [reflexivity|].
  rewrite <- IH. destruct (primary_keys rest); reflexivity.
Qed.

Lemma primary_keys_unflagged (rs : list ModelFieldInfo) :
  existsb PrimaryKey rs = false -> primary_keys rs = [].
Proof.
  induction rs as [|f rest IH]; [reflexivity|].
  cbn. intros Hno. apply orb_false_iff in Hno as [-> Hno]. rewrite IH by assumption.
  reflexivity.
Qed.

Lemma primary_keys_marked (rs : list ModelFieldInfo) :
  forall (q : nat),
    existsb PrimaryKey rs = false ->
    first_index column_is_id rs = Some q ->
    primary_keys (alter (set_PrimaryKey true) q rs) = [q].
Proof.
  induction rs as [|f rest IH]; intros q Hno Hq; [discriminate|].
  cbn in Hno, Hq. apply orb_false_iff in Hno as [Hf Hno].
  destruct (column_is_id f).
  - injection Hq as <-. cbn. rewrite primary_keys_unflagged by assumption. reflexivity.
  - destruct (first_index column_is_id rest) as [q'|]; [|discriminate].
    injection Hq as <-. cbn. rewrite Hf, (IH q') by auto. reflexivity.
Qed.

(** The fields of the built model: the resolved fields as they are when
    one of them is flagged, and else the resolved fields with the flag set
    on the first one whose column is [id]. *)
Lemma buildModelInfo_selection `{Strconv} (o : Object) (fs : list Field)
    (rs : list ModelFieldInfo) :
  objFields o = Ret fs ->
  mapM buildModelFieldInfo fs = Ret rs ->
  buildModelInfo (Some o)
  = Ret {| ModelInfo_Name := Object_Name o;
           Fields := match first_flagged rs with
                     | Some _ => rs
                     | None => mark_pointer rs (first_id rs)
                     end;
           ModelInfo_Comments := [] |}.
Proof.
  intros Hfs Hrs. rewrite (buildModelInfo_fields o fs rs Hfs Hrs). do 2 f_equal.
  pose proof (first_flagged_exists rs) as Hex.
  destruct (first_flagged rs) as [i|].
  - destruct (pointer_after_flagged rs 0 None Hex) as (p & f & -> & Hp & Hf).
    exact (alter_flagged rs p f Hp Hf).
  - rewrite (pointer_after_unflagged rs 0 Hex). unfold first_id.
    destruct (first_index column_is_id rs); reflexivity.
Qed.

(** C1, as the code has it.  For a struct whose fields all resolve, the
    model is built, and: when the resolver flags a field, the fields of
    the model are the resolved fields unchanged, so that the flagged
    fields, all of them, are its primary keys, the first flagged field
    being the first of them, and no field is added for a column [id];
    when the resolver flags no field, the only primary key is the first
    field whose column is [id], if there is one. *)
Theorem C1_flagged_fields_stay_primary_keys `{Strconv} (o : Object) (fs : list Field)
    (rs : list ModelFieldInfo) :
  objFields o = Ret fs ->
  mapM buildModelFieldInfo fs = Ret rs ->
  exists m,
    buildModelInfo (Some o) = Ret m
    /\ match first_flagged rs with
       | Some i =>
           Fields m = rs
           /\ primary_keys (Fields m) = primary_keys rs
           /\ head (primary_keys (Fields m)) = Some i
       | None =>
           Fields m = mark_pointer rs (first_id rs)
           /\ primary_keys (Fields m) = option_list (first_id rs)
       end.
Proof.
  intros Hfs Hrs. eexists. split; [exact (buildModelInfo_selection o fs rs Hfs Hrs)|].
  cbn [Fields].
  pose proof (first_flagged_exists rs) as Hex.
  pose proof (head_primary_keys rs) as Hhead.
  destruct (first_flagged rs) as [i|]; [auto|].
  split; [reflexivity|]. unfold first_id.
  destruct (first_index column_is_id rs) as [q|] eqn:Hq; cbn.
  - apply primary_keys_marked; assumption.
  - apply primary_keys_unflagged; assumption.
Qed.

Lemma C1_witness :
  exists m,
    @buildModelInfo plain_strconv (struct_object "Membership" composite_key) = Ret m
    /\ Fields m = composite_key_resolved
    /\ primary_keys (Fields m) = [0; 1]%nat
    /\ head (primary_keys (Fields m)) = Some 0%nat.
Proof.
  assert (Hrs : mapM (@buildModelFieldInfo plain_strconv) composite_key
                = Ret composite_key_resolved) by (vm_compute; reflexivity).
  exact (@C1_flagged_fields_stay_primary_keys plain_strconv
           (mkObject "Membership" (TypeSpec (StructType composite_key)))
           composite_key composite_key_resolved eq_refl Hrs).
Defined.

(** C1 as it is stated fails: the type has an untagged field [ID] and
    two fields tagged as primary keys.  The first flagged field is field 1
    but the built model carries the flag on fields 1 and 2, and
    [primaryKey] ends on field 2. *)
Lemma C1_counterexample :
  @buildModelInfo plain_strconv (struct_object "Account" keyed_after_id)
    = Ret {| ModelInfo_Name := "Account"; Fields := keyed_after_id_resolved;
             ModelInfo_Comments := [] |}
  /\ mapM (@buildModelFieldInfo plain_strconv) keyed_after_id = Ret keyed_after_id_resolved
  /\ first_flagged keyed_after_id_resolved = Some 1%nat
  /\ primary_keys keyed_after_id_resolved = [1; 2]%nat
  /\ primary_keys keyed_after_id_resolved <> option_list (first_flagged keyed_after_id_resolved)
  /\ @fields_loop plain_strconv 0 keyed_after_id (replicate 3 zeroField) None
     = Ret (keyed_after_id_resolved, Some 2%nat).
Proof.
  repeat split; try (vm_compute; reflexivity). discriminate.
Qed.

(** C5, as the code has it.  For a struct whose fields all resolve, the
    model is built, and the number of its fields that carry the
    primary-key flag is the number of fields the resolver flagged, or one
    when it flagged none and some column is [id]; so the model has at most
    one primary key whenever the resolver flagged at most one field. *)
Theorem C5_primary_key_count `{Strconv} (o : Object) (fs : list Field)
    (rs : list ModelFieldInfo) :
  objFields o = Ret fs ->
  mapM buildModelFieldInfo fs = Ret rs ->
  exists m,
    buildModelInfo (Some o) = Ret m
    /\ length (primary_keys (Fields m))
       = Nat.max (length (primary_keys rs)) (length (option_list (first_id rs)))
    /\ ((length (primary_keys rs) <= 1)%nat -> (length (primary_keys (Fields m)) <= 1)%nat).
Proof.
  intros Hfs Hrs. eexists. split; [exact (buildModelInfo_selection o fs rs Hfs Hrs)|].
  cbn [Fields].
  assert (Hone : (length (option_list (first_id rs)) <= 1)%nat)
    by (destruct (first_id rs); cbn; lia).
  pose proof (first_flagged_exists rs) as Hex.
  pose proof (head_primary_keys rs) as Hhead.
  destruct (first_flagged rs) as [i|].
  - destruct (primary_keys rs) as [|k ks]; [discriminate|]. cbn in *. lia.
  - rewrite (primary_keys_unflagged rs Hex). cbn [length Nat.max].
    assert (Hpk : primary_keys (mark_pointer rs (first_id rs)) = option_list (first_id rs)).
    { unfold first_id. destruct (first_index column_is_id rs) as [q|] eqn:Hq; cbn.
      - apply primary_keys_marked; assumption.
      - apply primary_keys_unflagged; assumption. }
    rewrite Hpk. split; [reflexivity | intros _; exact Hone].
Qed.

Lemma C5_witness :
  exists m,
    @buildModelInfo plain_strconv (struct_object "Article" id_only) = Ret m
    /\ length (primary_keys (Fields m)) = 1%nat
    /\ ((0 <= 1)%nat -> (length (primary_keys (Fields m)) <= 1)%nat).
Proof.
  assert (Hrs : mapM (@buildModelFieldInfo plain_strconv) id_only = Ret id_only_resolved)
    by (vm_compute; reflexivity).
  exact (@C5_primary_key_count plain_strconv
           (mkObject "Article" (TypeSpec (StructType id_only)))
           id_only id_only_resolved eq_refl Hrs).
Defined.

(** C5 as it is stated fails: the type has two fields tagged as primary
    keys, and the built model carries the flag on both. *)
Lemma C5_counterexample :
  @buildModelInfo plain_strconv (struct_object "Membership" composite_key)
    = Ret {| ModelInfo_Name := "Membership"; Fields := composite_key_resolved;
             ModelInfo_Comments := [] |}
  /\ length (primary_keys composite_key_resolved) = 2%nat
  /\ ~ (length (primary_keys composite_key_resolved) <= 1)%nat.
Proof.
  repeat split; try (vm_compute; reflexivity). cbn. lia.
Qed.

(** * Further properties of the code *)

(** ** [snakeString] *)







(** ** Strings *)

Lemma append_cons (c : ascii) (a b : string) :
  String.append (String c a) b = String c (String.append a b).
Proof. reflexivity. Qed.

Lemma length_append (a b : string) :
  String.length (String.append a b) = (String.length a + String.length b)%nat.
Proof.
  induction a as [|c a IH]; [reflexivity|].
  rewrite append_cons. cbn [String.length Nat.add]. rewrite IH. reflexivity.
Qed.

Lemma substring_skip_app (a b : string) (m : nat) :
  String.substring (String.length a) m (String.append a b) = String.substring 0 m b.
Proof.
  induction a as [|c a IH]; [reflexivity|].
  rewrite append_cons. cbn [String.length String.substring]. exact IH.
Qed.

Lemma substring_prefix_app (a b : string) :
  String.substring 0 (String.length a) (String.append a b) = a.
Proof.
  induction a as [|c a IH]; [destruct b; reflexivity|].
  rewrite append_cons. cbn [String.length String.substring]. rewrite IH. reflexivity.
Qed.

Lemma from_app (a b : string) : reflect.from (String.length a) (String.append a b) = b.
Proof.
  unfold reflect.from. rewrite length_append, substring_skip_app.
  replace (String.length a + String.length b - String.length a)%nat
    with (String.length b) by lia.
  apply substring_all.
Qed.

Lemma get_app (a b : string) (c : ascii) :
  String.get (String.length a) (String.append a (String c b)) = Some c.
Proof.
  induction a as [|x a IH]; [reflexivity|].
  rewrite append_cons. cbn [String.length String.get]. exact IH.
Qed.

Lemma append_assoc (a b c : string) :
  String.append (String.append a b) c = String.append a (String.append b c).
Proof.
  induction a as [|x a IH]; [reflexivity|].
  rewrite !append_cons, IH. reflexivity.
Qed.

(** The slice of line 228 on a literal of three bytes or more: the
    literal without its first byte and without its last two bytes. *)
Lemma slice_literal (c0 c1 c2 : ascii) (inner : string) :
  let Value := String c0 (String.append inner (String c1 (String c2 EmptyString))) in
  strings.slice Value 1 (strings.len Value - 2) = Ret inner.
Proof.
  cbn zeta. unfold strings.slice, strings.len. cbn [String.length].
  rewrite length_append. cbn [String.length].
  replace (Z.of_nat (S (String.length inner + 2)) - 2) with (Z.of_nat (String.length inner) + 1)
    by lia.
  assert (H1 : (0 <=? 1) = true) by reflexivity.
  assert (H2 : (1 <=? Z.of_nat (String.length inner) + 1) = true) by (apply Z.leb_le; lia).
  assert (H3 : (Z.of_nat (String.length inner) + 1
                <=? Z.of_nat (S (String.length inner + 2))) = true) by (apply Z.leb_le; lia).
  rewrite H1, H2, H3. cbn [andb]. f_equal.
  replace (Z.to_nat (Z.of_nat (String.length inner) + 1 - 1)) with (String.length inner) by lia.
  change (Z.to_nat 1) with 1%nat. cbn [String.substring].
  apply substring_prefix_app.
Qed.

(** A literal of one or two bytes makes the slice panic. *)
Lemma slice_short (Value : string) :
  (0 < String.length Value < 3)%nat ->
  strings.slice Value 1 (strings.len Value - 2) = Panic slice_out_of_range.
Proof.
  intros Hlen. unfold strings.slice, strings.len.
  assert (H2 : (1 <=? Z.of_nat (String.length Value) - 2) = false) by (apply Z.leb_gt; lia).
  rewrite H2, andb_false_r. reflexivity.
Qed.

(** ** [Lookup] finds nothing in a tag with fewer than two quotes *)

Lemma quotes_cons_le (c : ascii) (s : string) : (quotes s <= quotes (String c s))%nat.
Proof. cbn. destruct (Ascii.eqb c "034"); lia. Qed.

Lemma quotes_substring (s : string) :
  forall n m : nat, (quotes (String.substring n m s) <= quotes s)%nat.
Proof.
  induction s as [|c s IH]; intros [|n] [|m]; cbn [String.substring]; try (cbn; lia).
  - specialize (IH 0%nat m). cbn. destruct (Ascii.eqb c "034"); lia.
  - etransitivity; [apply IH | apply quotes_cons_le].
  - etransitivity; [apply IH | apply quotes_cons_le].
Qed.

Lemma quotes_skip_space (s : string) : (quotes (reflect.skip_space s) <= quotes s)%nat.
Proof.
  induction s as [|c s IH]; [reflexivity|].
  cbn [reflect.skip_space]. destruct (Ascii.eqb c " "); [|reflexivity].
  etransitivity; [apply IH | apply quotes_cons_le].
Qed.

Lemma from_get (s : string) :
  forall (k : nat) (c : ascii),
    String.get k s = Some c -> reflect.from k s = String c (reflect.from 1 (reflect.from k s)).
Proof.
  unfold reflect.from.
  induction s as [|x s IH]; intros k c Hget; [destruct k; discriminate|].
  destruct k as [|k].
  - cbn in Hget. injection Hget as ->.
    cbn [String.length Nat.sub String.substring]. rewrite substring_all.
    cbn [String.length Nat.sub String.substring]. rewrite Nat.sub_0_r, substring_all.
    reflexivity.
  - cbn in Hget. cbn [String.length Nat.sub String.substring]. exact (IH k c Hget).
Qed.

(** A scan of the quoted string that stops before the end stops at a quote. *)
Lemma scan_quoted_stop (n : nat) :
  forall (rest : string) (i : nat),
    (String.length rest <= n)%nat ->
    (reflect.scan_quoted rest i < i + String.length rest)%nat ->
    (1 <= quotes rest)%nat.
Proof.
  induction n as [|n IH]; intros rest i Hlen Hstop.
  - destruct rest; cbn in *; lia.
  - destruct rest as [|c rest]; [cbn in Hstop; lia|].
    cbn [reflect.scan_quoted quotes] in *. cbn [String.length] in Hlen, Hstop.
    destruct (Ascii.eqb c "034"); [lia|].
    destruct (Ascii.eqb c "\").
    + destruct rest as [|d rest]; [cbn in Hstop; lia|].
      cbn [String.length] in Hlen, Hstop.
      assert (1 <= quotes rest)%nat by (apply (IH rest (i + 2)%nat); lia).
      pose proof (quotes_cons_le d rest). lia.
    + apply (IH rest (i + 1)%nat); lia.
Qed.

Lemma Lookup_needs_two_quotes `{Strconv} (fuel : nat) (tag key : string) :
  (quotes tag <= 1)%nat -> reflect.Lookup_loop fuel tag key = None.
Proof.
  intros Hq. destruct fuel as [|fuel]; [reflexivity|].
  cbn [reflect.Lookup_loop].
  destruct (String.eqb tag EmptyString); [reflexivity|].
  pose proof (quotes_skip_space tag) as Hskip.
  destruct (String.eqb (reflect.skip_space tag) EmptyString); [reflexivity|].
  set (tag0 := reflect.skip_space tag) in *.
  set (i0 := reflect.scan_name tag0).
  destruct (Nat.eqb i0 0 || Nat.leb (String.length tag0) (i0 + 1)
            || negb (reflect.byte_at tag0 i0 ":")
            || negb (reflect.byte_at tag0 (i0 + 1) "034")) eqn:Hchecks; [reflexivity|].
  apply orb_false_iff in Hchecks as [_ Hquote]. apply negb_false_iff in Hquote.
  unfold reflect.byte_at in Hquote.
  destruct (String.get (i0 + 1) tag0) as [c|] eqn:Hget; [|discriminate].
  apply Ascii.eqb_eq in Hquote as ->.
  pose proof (from_get tag0 (i0 + 1) _ Hget) as Htag1.
  pose proof (quotes_substring tag0 (i0 + 1) (String.length tag0 - (i0 + 1))) as Hsub.
  fold (reflect.from (i0 + 1) tag0) in Hsub.
  set (tag1 := reflect.from (i0 + 1) tag0) in *.
  destruct (Nat.leb_spec (String.length tag1) (reflect.scan_quoted (reflect.from 1 tag1) 1))
    as [|Hstop]; [reflexivity|].
  exfalso.
  pose proof (f_equal String.length Htag1) as Hlen1. cbn [String.length] in Hlen1.
  pose proof (f_equal quotes Htag1) as Hq1. cbn in Hq1.
  assert (1 <= quotes (reflect.from 1 tag1))%nat
    by (apply (scan_quoted_stop _ _ 1%nat (Nat.le_refl _)); lia).
  lia.
Qed.

(** [Get] finds no value in a tag with fewer than two quotes. *)
Lemma Get_needs_two_quotes `{Strconv} (tag key : string) :
  (quotes tag <= 1)%nat -> reflect.Get tag key = EmptyString.
Proof.
  intros Hq. unfold reflect.Get, reflect.Lookup.
  rewrite Lookup_needs_two_quotes by assumption. reflexivity.
Qed.

(** ** [Lookup] reads the first pair of a tag *)

Lemma scan_quoted_plain (V : string) :
  forall (more : string) (i : nat),
    plain_value V = true ->
    reflect.scan_quoted (String.append V (String "034" more)) i = (i + String.length V)%nat.
Proof.
  induction V as [|c V IH]; intros more i Hplain.
  - change (String.append EmptyString (String "034" more)) with (String "034" more).
    cbn [reflect.scan_quoted String.length]. rewrite Ascii.eqb_refl. lia.
  - cbn [plain_value] in Hplain. apply andb_true_iff in Hplain as [Hc Hplain].
    apply andb_true_iff in Hc as [Hc Hnq].
    unfold reflect.is_plain in Hc. apply andb_true_iff in Hc as [Hc _].
    apply andb_true_iff in Hc as [Hnb _].
    apply negb_true_iff in Hnq, Hnb.
    rewrite append_cons. cbn [reflect.scan_quoted String.length].
    rewrite Hnq, Hnb, IH by assumption. lia.
Qed.

Lemma plain_value_all_plain (V : string) : plain_value V = true -> reflect.all_plain V = true.
Proof.
  induction V as [|c V IH]; [reflexivity|]. cbn. intros Hplain.
  apply andb_true_iff in Hplain as [Hc Hplain]. apply andb_true_iff in Hc as [-> _].
  exact (IH Hplain).
Qed.

(** The value of the first pair [key:"V"] of a tag, whatever follows. *)
Lemma Lookup_first_pair `{Strconv} (fuel : nat) (key V more : string) :
  key <> EmptyString ->
  (forall r, reflect.skip_space (String.append key r) = String.append key r) ->
  (forall r, reflect.scan_name (String.append key (String ":" r)) = String.length key) ->
  plain_value V = true ->
  reflect.Lookup_loop (S fuel)
    (String.append key
       (String ":" (String "034" (String.append V (String "034" more))))) key
  = Some V.
Proof.
  intros Hkey Hskip Hname Hplain.
  set (quoted := String "034" (String.append V (String "034" more))).
  assert (Hne : String.eqb (String.append key (String ":" quoted)) EmptyString = false).
  { destruct key; [contradiction | reflexivity]. }
  assert (Hlen : String.length (String.append key (String ":" quoted))
                 = (String.length key + 1 + String.length quoted)%nat).
  { rewrite length_append. cbn [String.length]. lia. }
  assert (Hassoc : String.append key (String ":" quoted)
                   = String.append (String.append key ":") quoted).
  { rewrite append_assoc. reflexivity. }
  assert (Hlen1 : String.length (String.append key ":") = (String.length key + 1)%nat).
  { rewrite length_append. reflexivity. }
  cbn [reflect.Lookup_loop]. rewrite Hne, Hskip, Hne, Hname.
  assert (Hpos : Nat.eqb (String.length key) 0 = false).
  { destruct key; [contradiction | reflexivity]. }
  assert (Hleb : Nat.leb (String.length (String.append key (String ":" quoted)))
                   (String.length key + 1) = false).
  { apply Nat.leb_gt. rewrite Hlen. unfold quoted. cbn [String.length]. lia. }
  assert (Hcolon : reflect.byte_at (String.append key (String ":" quoted))
                     (String.length key) ":" = true).
  { unfold reflect.byte_at. rewrite get_app. reflexivity. }
  assert (Hquote : reflect.byte_at (String.append key (String ":" quoted))
                     (String.length key + 1) "034" = true).
  { unfold reflect.byte_at. rewrite Hassoc, <- Hlen1. unfold quoted. rewrite get_app.
    reflexivity. }
  rewrite Hpos, Hleb, Hcolon, Hquote. cbn [orb negb].
  assert (Htag1 : reflect.from (String.length key + 1) (String.append key (String ":" quoted))
                  = quoted).
  { rewrite Hassoc, <- Hlen1. apply from_app. }
  rewrite Htag1.
  assert (Hrest : reflect.from 1 quoted = String.append V (String "034" more)).
  { unfold quoted. exact (from_app (String "034" EmptyString) _). }
  rewrite Hrest, scan_quoted_plain by assumption.
  assert (Hleb1 : Nat.leb (String.length quoted) (1 + String.length V) = false).
  { apply Nat.leb_gt. unfold quoted. cbn [String.length]. rewrite length_append.
    cbn [String.length]. lia. }
  rewrite Hleb1, substring_prefix_app, String.eqb_refl.
  assert (Hqvalue : String.substring 0 (1 + String.length V + 1) quoted
                    = String "034" (String.append V (String "034" EmptyString))).
  { transitivity (String.substring 0
                    (String.length (String "034" (String.append V (String "034" EmptyString))))
                    (String.append (String "034" (String.append V (String "034" EmptyString)))
                                   more)).
    - f_equal.
      + cbn [String.length]. rewrite length_append. cbn [String.length]. lia.
      + unfold quoted. rewrite append_cons, append_assoc. reflexivity.
    - apply substring_prefix_app. }
  rewrite Hqvalue. unfold reflect.Unquote.
  assert (Hinner : String.substring 1
                     (String.length (String "034" (String.append V (String "034" EmptyString))) - 2)
                     (String "034" (String.append V (String "034" EmptyString))) = V).
  { cbn [String.length String.substring]. rewrite length_append. cbn [String.length].
    replace (S (String.length V + 1) - 2)%nat with (String.length V) by lia.
    apply substring_prefix_app. }
  rewrite Hinner, plain_value_all_plain by assumption. reflexivity.
Qed.


(** ** The column and the flag of a tagged field *)

(** The three branches of lines 229-241 on the tag that line 228 cuts
    out of a tag literal. *)
Lemma resolve_column_tagged `{Strconv} (af : Field) (name : string) (names : list string)
    (Value tag : string) :
  Field_Names af = name :: names ->
  Field_Tag af = Some Value ->
  strings.slice Value 1 (strings.len Value - 2) = Ret tag ->
  resolve_column af
  = Ret (if negb (String.eqb (reflect.Get tag "gorm") EmptyString)
         then fold_left scan_token (strings.Split (reflect.Get tag "gorm") ";")
                (set_Name name zeroField)
         else if negb (String.eqb (reflect.Get tag "json") EmptyString)
              then set_Column (reflect.Get tag "json") (set_Name name zeroField)
              else set_Column (snakeString name) (set_Name name zeroField)).
Proof.
  intros Hn Htag Hslice. unfold resolve_column. rewrite Hn, Htag.
  change (at_index (name :: names) 0) with (Ret name).
  destruct (String.eqb_spec Value EmptyString) as [-> | Hne].
  - discriminate Hslice.
  - cbn -[String.eqb strings.slice strings.len reflect.Get snakeString strings.Split].
    rewrite Hslice.
    cbn -[String.eqb reflect.Get snakeString strings.Split].
    destruct (negb (String.eqb (reflect.Get tag "gorm") EmptyString)); [reflexivity|].
    destruct (negb (String.eqb (reflect.Get tag "json") EmptyString)); reflexivity.
Qed.

(** X2. A named field whose tag literal, once line 228 has dropped its
    first byte and its last two bytes, holds at most one double quote:
    the tag is ignored, whatever its key.  The field gets the snake case
    of its name as column and is not flagged.  A literal with a single
    pair, such as [gorm:"column:user"] or [gorm:"primaryKey"], is of this
    kind. *)
Theorem X2_tag_cut_below_two_quotes_is_ignored `{Strconv}
    (af : Field) (name : string) (names : list string) (c0 c1 c2 : ascii) (inner : string) :
  Field_Names af = name :: names ->
  Field_Tag af = Some (String c0 (String.append inner (String c1 (String c2 EmptyString)))) ->
  (quotes inner <= 1)%nat ->
  qualified_type (Field_Type af) = true ->
  exists typ,
    buildModelFieldInfo af
    = Ret {| Name := name; Type_ := typ; Column := snakeString name;
             PrimaryKey := false; Comments := [] |}.
Proof.
  intros Hn Htag Hquotes Hq.
  pose proof (resolve_column_tagged af name names _ inner Hn Htag (slice_literal c0 c1 c2 inner))
    as Hcol.
  rewrite !Get_needs_two_quotes in Hcol by assumption.
  destruct (buildModelFieldInfo_resolved af _ Hcol Hq) as [typ ->].
  exists typ. reflexivity.
Qed.

Lemma X2_witness :
  exists typ,
    @buildModelFieldInfo plain_strconv
      (string_field "UserName" (Some (tag_literal [("gorm", "column:user")])))
    = Ret {| Name := "UserName"; Type_ := typ; Column := snakeString "UserName";
             PrimaryKey := false; Comments := [] |}.
Proof.
  apply (@X2_tag_cut_below_two_quotes_is_ignored plain_strconv
           (string_field "UserName" (Some (tag_literal [("gorm", "column:user")])))
           "UserName" [] "`" "034" "`"
           (String.append "gorm:" (String.append dquote "column:user"))).
  - reflexivity.
  - reflexivity.
  - vm_compute. lia.
  - reflexivity.
Defined.

(** *** The tokens of a [gorm] value *)




Lemma key_token_no_column (v : string) :
  strings.HasPrefix v _columnPrefix = true -> is_key_token v = false.
Proof.
  intros Hpre. unfold is_key_token.
  destruct (String.eqb_spec v _primaryKey1) as [-> | _]; [discriminate Hpre|].
  destruct (String.eqb_spec v _primaryKey2) as [-> | _]; [discriminate Hpre|].
  reflexivity.
Qed.

Lemma default_last_cons {A} (l : list A) :
  forall d y : A, default d (last (y :: l)) = default y (last l).
Proof.
  induction l as [|z l IH]; intros d y; [reflexivity|].
  change (last (y :: z :: l)) with (last (z :: l)).
  rewrite (IH d z), (IH y z). reflexivity.
Qed.

(** What the loop of lines 230-236 leaves in the field: the column of
    the last [column:] token if there is one, the flag if a token is one
    of the two primary-key words. *)
Lemma scan_tokens_fold (tokens : list string) :
  forall field : ModelFieldInfo,
    fold_left scan_token tokens field
    = {| Name := Name field; Type_ := Type_ field;
         Column := default (Column field) (last (column_values tokens));
         PrimaryKey := PrimaryKey field || existsb is_key_token tokens;
         Comments := Comments field |}.
Proof.
  induction tokens as [|v tokens IH]; intros field.
  - cbn. rewrite orb_false_r. destruct field; reflexivity.
  - cbn [fold_left]. rewrite IH. unfold scan_token, column_values.
    cbn [omap list_omap existsb].
    fold (is_key_token v).
    destruct (strings.HasPrefix v _columnPrefix) eqn:Hpre.
    + rewrite (key_token_no_column v Hpre). cbn [orb Name Type_ Column PrimaryKey Comments set_Column].
      f_equal. symmetry. apply default_last_cons.
    + destruct (is_key_token v); cbn [orb Name Type_ Column PrimaryKey Comments set_PrimaryKey].
      * rewrite orb_true_r. reflexivity.
      * reflexivity.
Qed.




(** ** When [buildModelFieldInfo] panics *)

Lemma slice_long (Value : string) :
  (3 <= String.length Value)%nat ->
  exists tag, strings.slice Value 1 (strings.len Value - 2) = Ret tag.
Proof.
  intros Hlen. unfold strings.slice, strings.len.
  assert (Hlo : (0 <=? 1) = true) by reflexivity.
  assert (Hmid : (1 <=? Z.of_nat (String.length Value) - 2) = true) by (apply Z.leb_le; lia).
  assert (Hhi : (Z.of_nat (String.length Value) - 2 <=? Z.of_nat (String.length Value)) = true)
    by (apply Z.leb_le; lia).
  rewrite Hlo, Hmid, Hhi. eexists. reflexivity.
Qed.

Lemma resolve_column_returns `{Strconv} (af : Field) (name : string) (names : list string) :
  Field_Names af = name :: names ->
  (forall Value, Field_Tag af = Some Value -> ~ (0 < String.length Value < 3)%nat) ->
  exists field, resolve_column af = Ret field.
Proof.
  intros Hn Hlong. destruct (Field_Tag af) as [Value|] eqn:Htag.
  - destruct (String.eqb_spec Value EmptyString) as [-> | Hne].
    + eexists. apply (resolve_column_untagged af name names Hn). right. exact Htag.
    + assert (Hlen : (3 <= String.length Value)%nat).
      { specialize (Hlong Value eq_refl). destruct Value; [contradiction|].
        cbn [String.length] in *. lia. }
      destruct (slice_long Value Hlen) as [tag Hslice].
      eexists. exact (resolve_column_tagged af name names Value tag Hn Htag Hslice).
  - eexists. apply (resolve_column_untagged af name names Hn). left. exact Htag.
Qed.

Lemma resolve_column_short `{Strconv} (af : Field) (Value : string) :
  Field_Tag af = Some Value ->
  (0 < String.length Value < 3)%nat ->
  exists p, resolve_column af = Panic p.
Proof.
  intros Htag Hlen. unfold resolve_column.
  destruct (Field_Names af) as [|name names].
  - eexists. reflexivity.
  - change (at_index (name :: names) 0) with (Ret name). rewrite Htag.
    destruct (String.eqb_spec Value EmptyString) as [-> | Hne]; [cbn in Hlen; lia|].
    cbn -[String.eqb strings.slice strings.len reflect.Get snakeString strings.Split].
    rewrite (slice_short Value Hlen). eexists. reflexivity.
Qed.

Lemma buildModelFieldInfo_unqualified `{Strconv} (af : Field) :
  qualified_type (Field_Type af) = false ->
  exists p, buildModelFieldInfo af = Panic p.
Proof.
  intros Hq. unfold buildModelFieldInfo, qualified_type in *.
  destruct (resolve_column af) as [field|p]; [|eexists; reflexivity].
  cbn. destruct (strip_stars (Field_Type af) 0) as [afType starLoop]. cbn in Hq.
  destruct afType as [n o|X|X Sel|fs|]; try discriminate.
  destruct X; try discriminate; eexists; reflexivity.
Qed.

(** X4. [buildModelFieldInfo] panics on exactly three kinds of field
    declaration: one without a name (an embedded field, for which
    [af.Names[0]] is out of range), one whose tag literal is non-empty
    and shorter than three bytes (the empty tag in back quotes or in
    double quotes, for which the bounds [1 : len-2] are inverted), and
    one whose type, under its stars, is a selector that does not qualify
    an identifier.  On every other declaration it returns a field. *)
Theorem X4_buildModelFieldInfo_panics_iff `{Strconv} (af : Field) :
  (exists p, buildModelFieldInfo af = Panic p)
  <-> Field_Names af = []
      \/ (exists Value, Field_Tag af = Some Value /\ (0 < String.length Value < 3)%nat)
      \/ qualified_type (Field_Type af) = false.
Proof.
  split.
  - intros [p Hpanic].
    destruct (Field_Names af) as [|name names] eqn:Hn; [left; reflexivity|].
    right.
    destruct (Field_Tag af) as [Value|] eqn:Htag.
    + destruct (Nat.ltb 0 (String.length Value) && Nat.ltb (String.length Value) 3) eqn:Hshort.
      * apply andb_true_iff in Hshort as [H0 H3].
        apply Nat.ltb_lt in H0, H3. left. exists Value. split; [reflexivity | lia].
      * right. destruct (qualified_type (Field_Type af)) eqn:Hq; [|reflexivity].
        destruct (resolve_column_returns af name names Hn) as [field Hcol].
        { intros V HV Hlen. rewrite Htag in HV. injection HV as <-.
          apply andb_false_iff in Hshort as [H0 | H3].
          - apply Nat.ltb_ge in H0. lia.
          - apply Nat.ltb_ge in H3. lia. }
        destruct (buildModelFieldInfo_resolved af field Hcol Hq) as [typ Hret].
        rewrite Hret in Hpanic. discriminate.
    + right. destruct (qualified_type (Field_Type af)) eqn:Hq; [|reflexivity].
      destruct (resolve_column_returns af name names Hn) as [field Hcol].
      { intros V HV. rewrite Htag in HV. discriminate. }
      destruct (buildModelFieldInfo_resolved af field Hcol Hq) as [typ Hret].
      rewrite Hret in Hpanic. discriminate.
  - intros [Hn | [(Value & Htag & Hlen) | Hq]].
    + unfold buildModelFieldInfo, resolve_column. rewrite Hn. eexists. reflexivity.
    + destruct (resolve_column_short af Value Htag Hlen) as [p Hp].
      unfold buildModelFieldInfo. rewrite Hp. eexists. reflexivity.
    + exact (buildModelFieldInfo_unqualified af Hq).
Qed.

(** ** The type string *)

Lemma add_stars_cons (n : nat) :
  forall t : string, add_stars n (String "*" t) = String "*" (add_stars n t).
Proof.
  induction n as [|n IH]; intros t; [reflexivity|].
  cbn [add_stars]. change (String.append "*" ?x) with (String "*" x).
  rewrite !IH. reflexivity.
Qed.

Lemma add_stars_S (n : nat) (t : string) :
  add_stars (S n) t = String "*" (add_stars n t).
Proof. cbn [add_stars]. apply add_stars_cons. Qed.

(** The stars that the loop of lines 245-251 counts and the deferred
    function puts back are the stars of the type. *)
Lemma strip_stars_text (t : Expr) :
  forall k : nat,
    (k <= snd (strip_stars t k))%nat
    /\ add_stars (snd (strip_stars t k) - k) (type_text (fst (strip_stars t k))) = type_text t.
Proof.
  induction t as [T o|X IH|X _ Sel|fs|]; intros k;
    try (cbn [strip_stars fst snd]; rewrite Nat.sub_diag; split; [lia | reflexivity]).
  cbn [strip_stars type_text]. destruct (IH (S k)) as [Hle Htext]. split; [lia|].
  replace (snd (strip_stars X (S k)) - k)%nat with (S (snd (strip_stars X (S k)) - S k)) by lia.
  rewrite add_stars_S, Htext. reflexivity.
Qed.

Lemma resolve_column_type `{Strconv} (af : Field) (field : ModelFieldInfo) :
  resolve_column af = Ret field -> Type_ field = EmptyString.
Proof.
  unfold resolve_column. destruct (Field_Names af) as [|name names]; [discriminate|].
  change (at_index (name :: names) 0) with (Ret name).
  cbn -[String.eqb strings.slice strings.len reflect.Get snakeString strings.Split].
  destruct (Field_Tag af) as [Value|]; [|intros [= <-]; reflexivity].
  destruct (String.eqb Value EmptyString); [intros [= <-]; reflexivity|].
  destruct (strings.slice Value 1 (strings.len Value - 2)) as [tag|p]; [|discriminate].
  cbn -[String.eqb reflect.Get snakeString strings.Split].
  destruct (negb (String.eqb (reflect.Get tag "gorm") EmptyString)).
  - intros [= <-]. rewrite scan_tokens_fold. reflexivity.
  - destruct (negb (String.eqb (reflect.Get tag "json") EmptyString)); intros [= <-]; reflexivity.
Qed.

Lemma resolve_type_text (afType : Expr) (field : ModelFieldInfo) :
  match afType with StarExpr _ => false | _ => true end = true ->
  match afType with
  | SelectorExpr (Ident _ _) _ => true
  | SelectorExpr _ _ => false
  | _ => true
  end = true ->
  Type_ field = EmptyString ->
  resolve_type afType field = Ret (set_Type (type_text afType) field).
Proof.
  intros Hbase Hq Hempty.
  destruct afType as [T o|X|X Sel|fs|]; try discriminate; cbn [resolve_type type_text].
  - reflexivity.
  - destruct X; try discriminate. reflexivity.
  - rewrite <- Hempty. destruct field; reflexivity.
  - rewrite <- Hempty. destruct field; reflexivity.
Qed.

Lemma strip_stars_base (t : Expr) :
  forall k : nat,
    match fst (strip_stars t k) with StarExpr _ => false | _ => true end = true
    /\ fst (strip_stars t k) = fst (strip_stars t 0).
Proof.
  induction t as [T o|X IH|X _ Sel|fs|]; intros k; try (split; reflexivity).
  cbn [strip_stars]. destruct (IH (S k)) as [Hb He]. destruct (IH 1%nat) as [_ He1].
  split; [exact Hb | congruence].
Qed.

(** X5. On a field declaration that does not make it panic,
    [buildModelFieldInfo] returns a field whose [Type] is the text of the
    declared type when that type is an identifier, a qualified
    identifier, or any number of stars in front of one of them.  For a
    type of another kind under the stars (a slice, a map, a struct, ...)
    the [Type] is the stars alone. *)
Theorem X5_type_is_the_text_of_the_type `{Strconv}
    (af : Field) (name : string) (names : list string) :
  Field_Names af = name :: names ->
  (forall Value, Field_Tag af = Some Value -> ~ (0 < String.length Value < 3)%nat) ->
  qualified_type (Field_Type af) = true ->
  exists field,
    buildModelFieldInfo af = Ret field
    /\ Name field = name
    /\ Type_ field = type_text (Field_Type af).
Proof.
  intros Hn Hlong Hq.
  destruct (resolve_column_returns af name names Hn Hlong) as [field Hcol].
  assert (Hname : Name field = name).
  { revert Hcol. unfold resolve_column. rewrite Hn.
    change (at_index (name :: names) 0) with (Ret name).
    cbn -[String.eqb strings.slice strings.len reflect.Get snakeString strings.Split].
    destruct (Field_Tag af) as [Value|]; [|intros [= <-]; reflexivity].
    destruct (String.eqb Value EmptyString); [intros [= <-]; reflexivity|].
    destruct (strings.slice Value 1 (strings.len Value - 2)) as [tag|p]; [|discriminate].
    cbn -[String.eqb reflect.Get snakeString strings.Split].
    destruct (negb (String.eqb (reflect.Get tag "gorm") EmptyString)).
    - intros [= <-]. rewrite scan_tokens_fold. reflexivity.
    - destruct (negb (String.eqb (reflect.Get tag "json") EmptyString));
        intros [= <-]; reflexivity. }
  pose proof (resolve_column_type af field Hcol) as Hempty.
  destruct (strip_stars_text (Field_Type af) 0) as [_ Htext].
  destruct (strip_stars_base (Field_Type af) 0) as [Hbase _].
  unfold buildModelFieldInfo, qualified_type in *. rewrite Hcol. cbn.
  destruct (strip_stars (Field_Type af) 0) as [afType starLoop].
  cbn [fst snd] in *. rewrite Nat.sub_0_r in Htext.
  rewrite (resolve_type_text afType field Hbase Hq Hempty). cbn.
  eexists. split; [reflexivity|]. split; [exact Hname | exact Htext].
Qed.

Lemma X5_witness :
  exists field,
    @buildModelFieldInfo plain_strconv
      (mkField ["DeletedAt"] (StarExpr (StarExpr (SelectorExpr (Ident "time" None) "Time"))) None)
    = Ret field
    /\ Name field = "DeletedAt"
    /\ Type_ field
       = type_text (StarExpr (StarExpr (SelectorExpr (Ident "time" None) "Time"))).
Proof.
  apply (@X5_type_is_the_text_of_the_type plain_strconv
           (mkField ["DeletedAt"]
              (StarExpr (StarExpr (SelectorExpr (Ident "time" None) "Time"))) None)
           "DeletedAt" []).
  - reflexivity.
  - intros Value HV. discriminate HV.
  - reflexivity.
Defined.

(** ** A tag whose first pair is [json] *)

(** One round of [Lookup] on a tag that starts with the pair [name:"V"]:
    the value when [name] is the key, the rest of the tag otherwise. *)
Lemma Lookup_pair `{Strconv} (fuel : nat) (name V more key : string) :
  name <> EmptyString ->
  (forall r, reflect.skip_space (String.append name r) = String.append name r) ->
  (forall r, reflect.scan_name (String.append name (String ":" r)) = String.length name) ->
  plain_value V = true ->
  reflect.Lookup_loop (S fuel)
    (String.append name
       (String ":" (String "034" (String.append V (String "034" more))))) key
  = if String.eqb key name then Some V else reflect.Lookup_loop fuel more key.
Proof.
  intros Hkey Hskip Hname Hplain.
  destruct (String.eqb_spec key name) as [-> | Hother].
  { exact (Lookup_first_pair fuel name V more Hkey Hskip Hname Hplain). }
  set (quoted := String "034" (String.append V (String "034" more))).
  assert (Hne : String.eqb (String.append name (String ":" quoted)) EmptyString = false).
  { destruct name; [contradiction | reflexivity]. }
  assert (Hlen : String.length (String.append name (String ":" quoted))
                 = (String.length name + 1 + String.length quoted)%nat).
  { rewrite length_append. cbn [String.length]. lia. }
  assert (Hassoc : String.append name (String ":" quoted)
                   = String.append (String.append name ":") quoted).
  { rewrite append_assoc. reflexivity. }
  assert (Hlen1 : String.length (String.append name ":") = (String.length name + 1)%nat).
  { rewrite length_append. reflexivity. }
  cbn [reflect.Lookup_loop]. rewrite Hne, Hskip, Hne, Hname.
  assert (Hpos : Nat.eqb (String.length name) 0 = false).
  { destruct name; [contradiction | reflexivity]. }
  assert (Hleb : Nat.leb (String.length (String.append name (String ":" quoted)))
                   (String.length name + 1) = false).
  { apply Nat.leb_gt. rewrite Hlen. unfold quoted. cbn [String.length]. lia. }
  assert (Hcolon : reflect.byte_at (String.append name (String ":" quoted))
                     (String.length name) ":" = true).
  { unfold reflect.byte_at. rewrite get_app. reflexivity. }
  assert (Hquote : reflect.byte_at (String.append name (String ":" quoted))
                     (String.length name + 1) "034" = true).
  { unfold reflect.byte_at. rewrite Hassoc, <- Hlen1. unfold quoted. rewrite get_app.
    reflexivity. }
  rewrite Hpos, Hleb, Hcolon, Hquote. cbn [orb negb].
  assert (Htag1 : reflect.from (String.length name + 1) (String.append name (String ":" quoted))
                  = quoted).
  { rewrite Hassoc, <- Hlen1. apply from_app. }
  rewrite Htag1.
  assert (Hrest : reflect.from 1 quoted = String.append V (String "034" more)).
  { unfold quoted. exact (from_app (String "034" EmptyString) _). }
  rewrite Hrest, scan_quoted_plain by assumption.
  assert (Hleb1 : Nat.leb (String.length quoted) (1 + String.length V) = false).
  { apply Nat.leb_gt. unfold quoted. cbn [String.length]. rewrite length_append.
    cbn [String.length]. lia. }
  rewrite Hleb1, substring_prefix_app, (proj2 (String.eqb_neq _ _) Hother).
  assert (Hafter : reflect.from (1 + String.length V + 1) quoted = more).
  { transitivity (reflect.from
                    (String.length (String "034" (String.append V (String "034" EmptyString))))
                    (String.append (String "034" (String.append V (String "034" EmptyString)))
                                   more)).
    - f_equal.
      + cbn [String.length]. rewrite length_append. cbn [String.length]. lia.
      + unfold quoted. rewrite append_cons, append_assoc. reflexivity.
    - apply from_app. }
  rewrite Hafter. reflexivity.
Qed.





(** ** Which declarations [isTablerFunc] takes *)

Local Ltac split_decl decl :=
  destruct decl as [[[recvs]|] name [[[params]|] [[results]|]]];
  cbn [Recv FuncDecl_Name FuncDecl_Type Params Results FieldList_List] in *.

(** X7. [isTablerFunc] answers [true] with the object [obj] exactly for
    a declaration that has a receiver list, is named [TableName], has an
    empty parameter list, has a result list of one field whose type is
    the identifier [string], and whose first receiver has as type an
    identifier or a pointer to an identifier that resolves to [obj].
    The result list is counted in fields, not in names, and the object
    may be nil when the identifier is not resolved. *)
Theorem X7_isTablerFunc_selects (decl : FuncDecl) (obj : option Object) :
  isTablerFunc decl = Ret (obj, true)
  <-> exists (recv0 : Field) (recvs : list Field) (result0 : Field)
        (string_obj : option Object) (n : string),
        Recv decl = Some {| FieldList_List := recv0 :: recvs |}
        /\ FuncDecl_Name decl = "TableName"
        /\ Params (FuncDecl_Type decl) = Some {| FieldList_List := [] |}
        /\ Results (FuncDecl_Type decl) = Some {| FieldList_List := [result0] |}
        /\ Field_Type result0 = Ident "string" string_obj
        /\ (Field_Type recv0 = Ident n obj \/ Field_Type recv0 = StarExpr (Ident n obj)).
Proof.
  split.
  - unfold isTablerFunc. split_decl decl; cbn; try discriminate.
    + destruct recvs as [|recv0 recvs]; cbn; [discriminate|].
      destruct (String.eqb_spec name funcName) as [-> | _]; cbn; [|discriminate].
      destruct params as [|param0 params]; cbn; [|discriminate].
      destruct results as [|result0 [|result1 results]]; cbn; try discriminate.
      destruct (Field_Type result0) as [typName string_obj| | | |] eqn:Hres; cbn;
        try discriminate.
      destruct (String.eqb_spec typName _string) as [-> | _]; cbn; [|discriminate].
      destruct (Field_Type recv0) as [n o|X| | |] eqn:Hrecv; cbn; try discriminate.
      * intros [= <-]. exists recv0, recvs, result0, string_obj, n. auto 10.
      * destruct X as [n o| | | |]; try discriminate.
        intros [= <-]. exists recv0, recvs, result0, string_obj, n. auto 10.
    + destruct recvs as [|recv0 recvs]; cbn; [discriminate|].
      destruct (String.eqb name funcName); cbn; [|discriminate].
      destruct params as [|param0 params]; cbn; discriminate.
    + destruct recvs as [|recv0 recvs]; cbn; [discriminate|].
      destruct (String.eqb name funcName); cbn; discriminate.
    + destruct recvs as [|recv0 recvs]; cbn; [discriminate|].
      destruct (String.eqb name funcName); cbn; discriminate.
  - intros (recv0 & recvs & result0 & string_obj & n & Hrecv & Hname & Hparams & Hresults
            & Hres & Htype).
    unfold isTablerFunc. rewrite Hrecv, Hname, Hparams, Hresults. cbn. rewrite Hres. cbn.
    destruct Htype as [-> | ->]; reflexivity.
Qed.

(** X8. [isTablerFunc] panics exactly on a declaration without a
    receiver list (every plain function, whatever its name), and on a
    method named [TableName] that has no parameter list or has an empty
    parameter list and no result list.  A method of another name never
    makes it panic. *)
Theorem X8_isTablerFunc_panics_iff (decl : FuncDecl) :
  (exists p, isTablerFunc decl = Panic p)
  <-> Recv decl = None
      \/ (exists recv0 recvs,
            Recv decl = Some {| FieldList_List := recv0 :: recvs |}
            /\ FuncDecl_Name decl = "TableName"
            /\ (Params (FuncDecl_Type decl) = None
                \/ (Params (FuncDecl_Type decl) = Some {| FieldList_List := [] |}
                    /\ Results (FuncDecl_Type decl) = None))).
Proof.
  split.
  - intros [p Hpanic]. revert Hpanic. unfold isTablerFunc.
    split_decl decl; cbn; try (intros _; left; reflexivity).
    + destruct recvs as [|recv0 recvs]; cbn; [discriminate|].
      destruct (String.eqb_spec name funcName) as [-> | _]; cbn; [|discriminate].
      destruct params as [|param0 params]; cbn; [|discriminate].
      destruct results as [|result0 [|result1 results]]; cbn; try discriminate.
      destruct (Field_Type result0) as [typName string_obj| | | |]; cbn; try discriminate.
      destruct (String.eqb typName _string); cbn; [|discriminate].
      destruct (Field_Type recv0) as [n o|X| | |]; cbn; try discriminate.
      destruct X; discriminate.
    + destruct recvs as [|recv0 recvs]; cbn; [discriminate|].
      destruct (String.eqb_spec name funcName) as [-> | _]; cbn; [|discriminate].
      destruct params as [|param0 params]; cbn; [|discriminate].
      intros _. right. exists recv0, recvs. auto.
    + destruct recvs as [|recv0 recvs]; cbn; [discriminate|].
      destruct (String.eqb_spec name funcName) as [-> | _]; cbn; [|discriminate].
      intros _. right. exists recv0, recvs. auto.
    + destruct recvs as [|recv0 recvs]; cbn; [discriminate|].
      destruct (String.eqb_spec name funcName) as [-> | _]; cbn; [|discriminate].
      intros _. right. exists recv0, recvs. auto.
  - intros [Hrecv | (recv0 & recvs & Hrecv & Hname & [Hparams | [Hparams Hresults]])];
      unfold isTablerFunc.
    + rewrite Hrecv. eexists. reflexivity.
    + rewrite Hrecv, Hname, Hparams. eexists. reflexivity.
    + rewrite Hrecv, Hname, Hparams, Hresults. eexists. reflexivity.
Qed.

(** ** The objects that [getModelObjects] collects *)

Lemma decls_loop_collects (decls : list Decl) :
  forall objects : list (option Object),
    Forall (fun d => decl_panics d = false) decls ->
    decls_loop decls objects = Ret (objects ++ omap tabler_object decls).
Proof.
  induction decls as [|d decls IH]; intros objects Hno.
  - cbn. rewrite app_nil_r. reflexivity.
  - apply Forall_cons_1 in Hno as [Hd Hno]. destruct d as [decl|].
    + cbn [decls_loop omap list_omap tabler_object decl_panics] in *.
      destruct (isTablerFunc decl) as [[obj [|]]|p]; [| |discriminate]; cbn.
      * rewrite (IH _ Hno), <- app_assoc. reflexivity.
      * exact (IH _ Hno).
    + cbn. exact (IH _ Hno).
Qed.

Lemma decls_loop_returns (decls : list Decl) :
  forall objects r : list (option Object),
    decls_loop decls objects = Ret r ->
    Forall (fun d => decl_panics d = false) decls.
Proof.
  induction decls as [|d decls IH]; intros objects r Hret; [constructor|].
  destruct d as [decl|].
  - cbn [decls_loop] in Hret. constructor.
    + cbn. destruct (isTablerFunc decl); [reflexivity | discriminate].
    + destruct (isTablerFunc decl) as [[obj [|]]|p]; [| |discriminate]; cbn in Hret;
        exact (IH _ _ Hret).
  - constructor; [reflexivity|]. exact (IH _ _ Hret).
Qed.

Lemma files_loop_collects `{CodeBuilder} (files : list File) :
  forall (g : Globals) (objects : list (option Object)),
    no_decl_panics files ->
    snd (files_loop files g objects) = Ret (objects ++ tabler_objects files).
Proof.
  induction files as [|file files IH]; intros g objects Hno.
  - cbn. rewrite app_nil_r. reflexivity.
  - apply Forall_cons_1 in Hno as [Hfile Hno].
    cbn [files_loop]. rewrite (decls_loop_collects _ _ Hfile).
    rewrite (IH _ _ Hno). unfold tabler_objects. cbn [flat_map].
    rewrite app_assoc. reflexivity.
Qed.

Lemma files_loop_returns `{CodeBuilder} (files : list File) :
  forall (g : Globals) (objects r : list (option Object)),
    snd (files_loop files g objects) = Ret r ->
    no_decl_panics files.
Proof.
  induction files as [|file files IH]; intros g objects r Hret; [constructor|].
  cbn [files_loop] in Hret.
  destruct (decls_loop (Decls file) objects) as [objects'|p] eqn:Hdecls; [|discriminate].
  constructor.
  - exact (decls_loop_returns _ _ _ Hdecls).
  - exact (IH _ _ _ Hret).
Qed.


(** ** A receiver that is not resolved *)

Lemma mapM_panics {A B} (f : A -> outcome B) (l : list A) (x : A) (p : string) :
  In x l -> f x = Panic p -> exists q, mapM f l = Panic q.
Proof.
  induction l as [|y l IH]; intros Hin Hx; [destruct Hin|].
  cbn [mapM]. destruct Hin as [-> | Hin].
  - rewrite Hx. eexists. reflexivity.
  - destruct (f y) as [b|q]; [|eexists; reflexivity]. cbn.
    destruct (IH Hin Hx) as [q ->]. eexists. reflexivity.
Qed.

Lemma tabler_objects_In (files : list File) (file : File) (d : Decl) (obj : option Object) :
  In file files -> In d (Decls file) -> tabler_object d = Some obj ->
  In obj (tabler_objects files).
Proof.
  intros Hfile Hd Hobj. unfold tabler_objects. apply in_flat_map.
  exists file. split; [exact Hfile|].
  apply list_elem_of_In, list_elem_of_omap. exists d. split; [|exact Hobj].
  apply list_elem_of_In. exact Hd.
Qed.

(** X10. When one of the parsed files declares a method that
    [isTablerFunc] takes while the identifier of its receiver type has no
    object (each file is parsed on its own, so that a type declared in
    another file of the package is not resolved), [main] panics: the nil
    object reaches [buildModelInfo], unless a declaration has made the
    run panic before.  No model is generated for any type. *)
Theorem X10_unresolved_receiver_panics `{Strconv} `{Build : CodeBuilder} `{FileSystem}
    (parsed : list File) (file : File) (decl : FuncDecl) :
  In file parsed ->
  In (DeclFunc decl) (Decls file) ->
  isTablerFunc decl = Ret (None, true) ->
  exists p, main parsed = Panic p.
Proof.
  intros Hfile Hdecl Htakes. unfold main.
  destruct (getModelObjects parsed initial_globals) as [g objects] eqn:Hget.
  destruct objects as [objects|p]; [|eexists; reflexivity].
  assert (Hobjects : snd (getModelObjects parsed initial_globals) = Ret objects)
    by (rewrite Hget; reflexivity).
  unfold getModelObjects in Hobjects.
  pose proof (files_loop_returns parsed _ [] objects Hobjects) as Hno.
  rewrite (files_loop_collects parsed _ [] Hno) in Hobjects. injection Hobjects as <-.
  assert (Hin : In None (tabler_objects parsed)).
  { apply (tabler_objects_In parsed file (DeclFunc decl) None Hfile Hdecl).
    cbn. rewrite Htakes. reflexivity. }
  destruct (mapM_panics buildModelInfo _ None nil_dereference Hin eq_refl) as [q Hq].
  cbn. rewrite Hq. eexists. reflexivity.
Qed.

Lemma X10_witness :
  exists p,
    @main plain_strconv small_engine scenario_builder disk_ok
      [{| File_Name := "model";
          Decls := [DeclOther; DeclFunc (unresolved_method "User")] |}]
    = Panic p.
Proof.
  apply (@X10_unresolved_receiver_panics plain_strconv small_engine scenario_builder disk_ok
           [{| File_Name := "model";
               Decls := [DeclOther; DeclFunc (unresolved_method "User")] |}]
           {| File_Name := "model";
              Decls := [DeclOther; DeclFunc (unresolved_method "User")] |}
           (unresolved_method "User")).
  - left. reflexivity.
  - right. left. reflexivity.
  - reflexivity.
Defined.

(** ** What [buildModelInfo] keeps, and when it panics *)









Lemma fields_loop_panics `{Strconv} (fs : list Field) :
  forall (i : nat) (mFields : list ModelFieldInfo) (primaryKey : option nat),
    Exists (fun af => exists p, buildModelFieldInfo af = Panic p) fs ->
    exists p, fields_loop i fs mFields primaryKey = Panic p.
Proof.
  induction fs as [|af fs IH]; intros i mFields primaryKey Hex.
  - apply Exists_nil in Hex. contradiction.
  - cbn [fields_loop]. destruct (buildModelFieldInfo af) as [f|p] eqn:Hf.
    + apply Exists_cons in Hex as [[p Hp] | Hex]; [rewrite Hp in Hf; discriminate|].
      cbn. destruct (PrimaryKey f); [exact (IH _ _ _ Hex)|].
      destruct (bool_decide (primaryKey = None) && String.eqb (Column f) "id");
        exact (IH _ _ _ Hex).
    + eexists. reflexivity.
Qed.

Lemma mapM_returns `{Strconv} (fs : list Field) :
  ~ Exists (fun af => exists p, buildModelFieldInfo af = Panic p) fs ->
  exists rs, mapM buildModelFieldInfo fs = Ret rs.
Proof.
  induction fs as [|af fs IH]; intros Hno; [eexists; reflexivity|].
  destruct (buildModelFieldInfo af) as [f|p] eqn:Hf.
  - destruct IH as [rs Hrs].
    { intros Hex. apply Hno. apply Exists_cons. right. exact Hex. }
    exists (f :: rs). cbn. rewrite Hf. cbn. rewrite Hrs. reflexivity.
  - exfalso. apply Hno. apply Exists_cons. left. eexists. exact Hf.
Qed.

Lemma some_field_panics `{Strconv} (fs : list Field) :
  Exists (fun af => exists p, buildModelFieldInfo af = Panic p) fs
  \/ ~ Exists (fun af => exists p, buildModelFieldInfo af = Panic p) fs.
Proof.
  induction fs as [|af fs [IH | IH]].
  - right. intros Hex. apply Exists_nil in Hex. exact Hex.
  - left. apply Exists_cons. right. exact IH.
  - destruct (buildModelFieldInfo af) as [f|q] eqn:Hf.
    + right. intros Hex. apply Exists_cons in Hex as [[p Hp] | Hex].
      * rewrite Hp in Hf. discriminate.
      * exact (IH Hex).
    + left. apply Exists_cons. left. eexists. exact Hf.
Qed.

(** X12. [buildModelInfo] panics exactly when the object is nil, or its
    declaration is not the specification of a struct type, or one of the
    fields of the struct makes [buildModelFieldInfo] panic; for every
    other object it returns a model. *)
Theorem X12_buildModelInfo_panics_iff `{Strconv} (obj : option Object) :
  (exists p, buildModelInfo obj = Panic p)
  <-> obj = None
      \/ exists o,
           obj = Some o
           /\ ((forall fs, Object_Decl o <> TypeSpec (StructType fs))
               \/ exists fs,
                    Object_Decl o = TypeSpec (StructType fs)
                    /\ Exists (fun af => exists p, buildModelFieldInfo af = Panic p) fs).
Proof.
  split.
  - intros [p Hpanic]. destruct obj as [o|]; [right | left; reflexivity].
    exists o. split; [reflexivity|].
    destruct (Object_Decl o) as [[T t|X|X Sel|fs|]|] eqn:Hdecl;
      try (left; intros fs'; discriminate).
    right. exists fs. split; [reflexivity|].
    destruct (some_field_panics fs) as [Hex|Hno].
    + exact Hex.
    + destruct (mapM_returns fs Hno) as [rs Hrs].
      assert (Hfs : objFields o = Ret fs) by (unfold objFields; rewrite Hdecl; reflexivity).
      rewrite (buildModelInfo_fields o fs rs Hfs Hrs) in Hpanic. discriminate.
  - intros [-> | (o & -> & [Hother | (fs & Hdecl & Hex)])].
    + eexists. reflexivity.
    + unfold buildModelInfo, objFields. cbn.
      destruct (Object_Decl o) as [[T t|X|X Sel|fs|]|]; try (eexists; reflexivity).
      exfalso. exact (Hother fs eq_refl).
    + unfold buildModelInfo, objFields. cbn. rewrite Hdecl. cbn.
      destruct (fields_loop_panics fs 0 (replicate (length fs) zeroField) None Hex) as [p ->].
      eexists. reflexivity.
Qed.

(** ** The errors and the files of [generateFile] *)

(** X13. An error that [generateFile] returns is the error of parsing
    the header template or the content template, the error of rendering
    the header, or the error of creating or writing a file: the error of
    rendering a content block is never returned. *)
Theorem X13_generateFile_error_origin `{Build : CodeBuilder} `{Disk : FileSystem}
    (packageMap_ : gmap string any) (models : list ModelInfo)
    (written : list (nat * list byte)) (e : error) :
  generateFile packageMap_ models = (written, Some e) ->
  Parse HeaderTemplate = inl e
  \/ Parse ContentTemplate = inl e
  \/ (exists hTemplate,
        Parse HeaderTemplate = inr hTemplate
        /\ snd (Execute hTemplate packageMap_) = Some e)
  \/ (exists i, write_result i = io_create_failed e
                \/ exists n, write_result i = io_write_failed n e).
Proof.
  unfold generateFile. intros Hrun.
  destruct (Parse HeaderTemplate) as [eh|hTemplate]; [injection Hrun as _ <-; auto|].
  destruct (Parse ContentTemplate) as [ec|cTemplate]; [injection Hrun as _ <-; auto|].
  destruct (models_loop packageMap_ hTemplate cTemplate models initial_genState)
    as [st [e0|]] eqn:Hloop.
  - injection Hrun as _ <-.
    destruct (models_loop_error_origin _ _ _ _ _ _ _ Hloop) as [Hh | Hio].
    + right. right. left. exists hTemplate. auto.
    + right. right. right. exact Hio.
  - destruct (Nat.eqb (length (buffer st)) 0); [discriminate|].
    unfold save in Hrun. right. right. right. exists (index st).
    destruct (write_result (index st)) as [|eio|n eio]; cbn in Hrun.
    + discriminate.
    + injection Hrun as _ <-. left. reflexivity.
    + injection Hrun as _ <-. right. exists n. reflexivity.
Qed.

Lemma X13_witness :
  @Parse small_engine (@HeaderTemplate _ scenario_builder) = inl "disk full"%string
  \/ @Parse small_engine (@ContentTemplate _ scenario_builder) = inl "disk full"%string
  \/ (exists hTemplate,
        @Parse small_engine (@HeaderTemplate _ scenario_builder) = inr hTemplate
        /\ snd (@Execute small_engine hTemplate ∅) = Some "disk full"%string)
  \/ (exists i, @write_result second_file_fails i = io_create_failed "disk full"%string
                \/ exists n, @write_result second_file_fails i
                             = io_write_failed n "disk full"%string).
Proof.
  assert (Hrun : @generateFile small_engine scenario_builder second_file_fails ∅ five_models
                 = ([(0%nat, list_byte_of_string
                       "package m;type M001 struct { ID string }type M002 struct { ID string }")],
                    Some "disk full"%string)) by (vm_compute; reflexivity).
  exact (@X13_generateFile_error_origin small_engine scenario_builder second_file_fails ∅
           five_models _ _ Hrun).
Defined.

Section file_shapes.
Context `{Build : CodeBuilder} `{Disk : FileSystem}.
Variable packageMap_ : gmap string any.
Variables hTemplate cTemplate : Template.
Variable h : list byte.
Hypothesis header_renders : Execute hTemplate packageMap_ = (h, None).

(** With a bound that is not positive every round writes a file. *)
Lemma models_loop_one_each (models : list ModelInfo) :
  forall st : genState,
    FileMaxSize <= 0 ->
    (forall i, write_result i = io_ok) ->
    setHeader st = false ->
    buffer st = [] ->
    exists st',
      models_loop packageMap_ hTemplate cTemplate models st = (st', None)
      /\ buffer st' = []
      /\ files st'
         = files st ++ combine (seq (index st) (length models))
                         (map (fun v => h ++ block cTemplate v) models).
Proof.
  induction models as [|v rest IH]; intros st Hmax Hio Hs Hb.
  - exists st. cbn. rewrite app_nil_r. auto.
  - assert (Hgrown : grown cTemplate h v st = h ++ block cTemplate v).
    { unfold grown. rewrite Hs, Hb. reflexivity. }
    rewrite (models_loop_flush packageMap_ hTemplate cTemplate h v rest st header_renders);
      [| pose proof (Nat2Z.is_nonneg (length (grown cTemplate h v st))); lia | apply Hio].
    destruct (IH {| buffer := []; index := S (index st); setHeader := false; err := None;
                    files := files st ++ [(index st, grown cTemplate h v st)] |}
                Hmax Hio eq_refl eq_refl) as (st' & Hrun & Hbuf & Hfiles).
    exists st'. split; [exact Hrun|]. split; [exact Hbuf|].
    rewrite Hfiles. cbn [files index length seq map combine].
    rewrite Hgrown, <- app_assoc. reflexivity.
Qed.

(** Below the bound the loop only appends to the buffer. *)
Lemma models_loop_below (models : list ModelInfo) :
  forall st : genState,
    setHeader st = true ->
    Z.of_nat (length (buffer st ++ concat (map (block cTemplate) models))) < FileMaxSize ->
    exists st',
      models_loop packageMap_ hTemplate cTemplate models st = (st', None)
      /\ buffer st' = buffer st ++ concat (map (block cTemplate) models)
      /\ files st' = files st
      /\ index st' = index st.
Proof.
  induction models as [|v rest IH]; intros st Hs Hlt.
  - exists st. cbn. rewrite app_nil_r. auto.
  - cbn [map concat] in Hlt. rewrite app_assoc in Hlt.
    assert (Hgrown : grown cTemplate h v st = buffer st ++ block cTemplate v).
    { unfold grown. rewrite Hs. reflexivity. }
    rewrite (models_loop_keep packageMap_ hTemplate cTemplate h v rest st header_renders).
    2:{ rewrite Hgrown. rewrite !length_app in Hlt. rewrite length_app. lia. }
    destruct (IH {| buffer := grown cTemplate h v st; index := index st; setHeader := true;
                    err := snd (Execute cTemplate (BuildTemplateMap v)); files := files st |}
                eq_refl) as (st' & Hrun & Hbuf & Hfiles & Hindex).
    { cbn [buffer]. rewrite Hgrown. exact Hlt. }
    exists st'. split; [exact Hrun|]. cbn [buffer files index] in *.
    rewrite Hbuf, Hgrown. cbn [map concat]. rewrite <- app_assoc. auto.
Qed.

End file_shapes.

(** X14. With a bound [FileMaxSize] that is zero or negative, templates
    that parse, a header that renders and a disk that takes every file,
    [generateFile] writes one file per model: file [i] holds the header
    and the content block of the model of index [i], and no error is
    returned, also when a content block fails to render. *)
Theorem X14_no_bound_one_file_per_model `{Build : CodeBuilder} `{Disk : FileSystem}
    (packageMap_ : gmap string any) (hTemplate cTemplate : Template) (h : list byte)
    (models : list ModelInfo) :
  Parse HeaderTemplate = inr hTemplate ->
  Parse ContentTemplate = inr cTemplate ->
  Execute hTemplate packageMap_ = (h, None) ->
  (forall i, write_result i = io_ok) ->
  FileMaxSize <= 0 ->
  generateFile packageMap_ models
  = (combine (seq 0 (length models)) (map (fun v => h ++ block cTemplate v) models), None).
Proof.
  intros HpH HpC Hh Hio Hmax. unfold generateFile. rewrite HpH, HpC.
  destruct (models_loop_one_each packageMap_ hTemplate cTemplate h Hh models initial_genState
              Hmax Hio eq_refl eq_refl) as (st' & Hrun & Hbuf & Hfiles).
  rewrite Hrun, Hbuf. cbn [length Nat.eqb]. rewrite Hfiles. reflexivity.
Qed.

Lemma X14_witness :
  @generateFile small_engine unbounded_builder disk_ok ∅ [model_named "A"; model_named "B"]
  = (combine (seq 0 2)
       (map (fun v => list_byte_of_string "package m;"
                      ++ @block small_engine unbounded_builder
                           "type $ struct { ID string }"%string v)
            [model_named "A"; model_named "B"]), None).
Proof.
  exact (@X14_no_bound_one_file_per_model small_engine unbounded_builder disk_ok ∅
           "package m;"%string "type $ struct { ID string }"%string
           (list_byte_of_string "package m;") [model_named "A"; model_named "B"]
           eq_refl eq_refl eq_refl (fun _ => eq_refl) ltac:(discriminate)).
Defined.

(** X15. When the header and the content blocks of all the models
    together stay below [FileMaxSize] and are not empty, [generateFile]
    writes a single file, of index 0, that holds the header once and then
    the content blocks of the models in order. *)
Theorem X15_below_the_bound_one_file `{Build : CodeBuilder} `{Disk : FileSystem}
    (packageMap_ : gmap string any) (hTemplate cTemplate : Template) (h : list byte)
    (v : ModelInfo) (rest : list ModelInfo) :
  Parse HeaderTemplate = inr hTemplate ->
  Parse ContentTemplate = inr cTemplate ->
  Execute hTemplate packageMap_ = (h, None) ->
  write_result 0 = io_ok ->
  Z.of_nat (length (file_of_group h (block cTemplate) (v :: rest))) < FileMaxSize ->
  file_of_group h (block cTemplate) (v :: rest) <> [] ->
  generateFile packageMap_ (v :: rest)
  = ([(0%nat, file_of_group h (block cTemplate) (v :: rest))], None).
Proof.
  intros HpH HpC Hh Hio Hlt Hne. unfold generateFile. rewrite HpH, HpC.
  unfold file_of_group in *. cbn [map concat] in *.
  assert (Hgrown : grown cTemplate h v initial_genState = h ++ block cTemplate v)
    by reflexivity.
  rewrite (models_loop_keep packageMap_ hTemplate cTemplate h v rest initial_genState Hh).
  2:{ rewrite Hgrown. rewrite !length_app in Hlt. rewrite length_app. lia. }
  destruct (models_loop_below packageMap_ hTemplate cTemplate h Hh rest
              {| buffer := grown cTemplate h v initial_genState;
                 index := index initial_genState; setHeader := true;
                 err := snd (Execute cTemplate (BuildTemplateMap v));
                 files := files initial_genState |} eq_refl)
    as (st' & Hrun & Hbuf & Hfiles & Hindex).
  { cbn [buffer]. rewrite Hgrown, <- app_assoc. exact Hlt. }
  rewrite Hrun. cbn [buffer files index initial_genState] in Hbuf, Hfiles, Hindex.
  rewrite Hgrown, <- app_assoc in Hbuf.
  destruct (Nat.eqb (length (buffer st')) 0) eqn:Hempty.
  - apply Nat.eqb_eq in Hempty. rewrite Hbuf in Hempty.
    apply length_zero_iff_nil in Hempty. contradiction.
  - unfold save. rewrite Hindex, Hio. cbn. rewrite Hfiles, Hbuf. reflexivity.
Qed.

Lemma X15_witness :
  @generateFile small_engine roomy_builder disk_ok ∅ [model_named "A"; model_named "B"]
  = ([(0%nat, file_of_group (list_byte_of_string "package m;")
                (@block small_engine roomy_builder "type $ struct { ID string }"%string)
                [model_named "A"; model_named "B"])], None).
Proof.
  apply (@X15_below_the_bound_one_file small_engine roomy_builder disk_ok ∅
           "package m;"%string "type $ struct { ID string }"%string
           (list_byte_of_string "package m;") (model_named "A") [model_named "B"]).
  - reflexivity.
  - reflexivity.
  - reflexivity.
  - reflexivity.
  - vm_compute. reflexivity.
  - vm_compute. discriminate.
Defined.

(** ** No more files than models *)

Lemma models_loop_count `{Build : CodeBuilder} `{Disk : FileSystem}
    (packageMap_ : gmap string any) (hTemplate cTemplate : Template)
    (models : list ModelInfo) :
  forall (st st' : genState) (e : option error),
    (buffer st <> [] -> setHeader st = true) ->
    models_loop packageMap_ hTemplate cTemplate models st = (st', e) ->
    (length (files st') + match e with None => pending_file st' | Some _ => 0 end
     <= length (files st) + pending_file st + length models)%nat
    /\ (e = None -> buffer st' <> [] -> setHeader st' = true).
Proof.
  induction models as [|v rest IH]; intros st st' e Hinv Hrun.
  - cbn in Hrun. injection Hrun as <- <-. split; [cbn; lia | intros _; exact Hinv].
  - cbn [length].
    assert (Hstep : forall st1 : genState,
               setHeader st1 = true -> files st1 = files st ->
               models_loop packageMap_ hTemplate cTemplate (v :: rest) st1 = (st', e) ->
               (length (files st') + match e with None => pending_file st' | Some _ => 0 end
                <= length (files st) + 1 + length rest)%nat
               /\ (e = None -> buffer st' <> [] -> setHeader st' = true)).
    { intros st1 Hs1 Hf1 Hrun1. cbn [models_loop] in Hrun1.
      rewrite Hs1 in Hrun1. cbn [negb] in Hrun1.
      destruct (Execute cTemplate (BuildTemplateMap v)) as [out e0].
      destruct (_ <? _).
      - apply IH in Hrun1; [|intros _; exact Hs1].
        cbn [files set_err] in Hrun1. unfold pending_file at 2 in Hrun1.
        cbn [setHeader set_err] in Hrun1. rewrite Hs1, Hf1 in Hrun1. exact Hrun1.
      - unfold save in Hrun1. cbn [index set_err buffer files setHeader err] in Hrun1.
        destruct (write_result (index st1)) as [|eio|n eio].
        + apply IH in Hrun1; [|intros Hne; contradiction].
          cbn [files set_err] in Hrun1. unfold pending_file at 2 in Hrun1.
          cbn [setHeader set_err] in Hrun1. rewrite length_app, Hf1 in Hrun1.
          cbn [length] in Hrun1. destruct Hrun1 as [Hcount Hkeep]. split; [lia | exact Hkeep].
        + injection Hrun1 as <- <-. cbn [files set_err]. rewrite Hf1.
          split; [lia | discriminate].
        + injection Hrun1 as <- <-. cbn [files set_err]. rewrite length_app, Hf1.
          cbn [length]. split; [lia | discriminate]. }
    unfold pending_file at 2.
    destruct (setHeader st) eqn:Hs.
    + destruct (Hstep st Hs eq_refl Hrun) as [Hcount Hkeep]. split; [lia | exact Hkeep].
    + cbn [models_loop] in Hrun. rewrite Hs in Hrun. cbn [negb] in Hrun.
      unfold setFileHeader in Hrun.
      destruct (Execute hTemplate packageMap_) as [hout [he|]] eqn:Hh.
      * injection Hrun as <- <-. cbn. split; [lia | discriminate].
      * assert (Hrun1 : models_loop packageMap_ hTemplate cTemplate (v :: rest)
                          {| buffer := buffer st ++ hout; index := index st;
                             setHeader := true; err := None; files := files st |}
                        = (st', e)) by exact Hrun.
        destruct (Hstep {| buffer := buffer st ++ hout; index := index st;
                           setHeader := true; err := None; files := files st |}
                    eq_refl eq_refl Hrun1) as [Hcount Hkeep].
        split; [lia | exact Hkeep].
Qed.

(** X16. Whatever the templates, the bound and the disk do, and whether
    or not it returns an error, [generateFile] writes at most as many
    files as there are models. *)
Theorem X16_no_more_files_than_models `{Build : CodeBuilder} `{Disk : FileSystem}
    (packageMap_ : gmap string any) (models : list ModelInfo) :
  (length (fst (generateFile packageMap_ models)) <= length models)%nat.
Proof.
  unfold generateFile.
  destruct (Parse HeaderTemplate) as [eh|hTemplate]; [cbn; lia|].
  destruct (Parse ContentTemplate) as [ec|cTemplate]; [cbn; lia|].
  destruct (models_loop packageMap_ hTemplate cTemplate models initial_genState)
    as [st e] eqn:Hloop.
  apply models_loop_count in Hloop; [|intros Hne; contradiction].
  destruct Hloop as [Hcount Hkeep]. cbn [files initial_genState length] in Hcount.
  unfold pending_file at 2 in Hcount. cbn [setHeader initial_genState] in Hcount.
  destruct e as [e|]; [cbn; lia|].
  destruct (Nat.eqb (length (buffer st)) 0) eqn:Hempty; [cbn; lia|].
  assert (Hs : setHeader st = true).
  { apply Hkeep; [reflexivity|]. intros Hnil. rewrite Hnil in Hempty. discriminate. }
  unfold pending_file in Hcount. rewrite Hs in Hcount.
  unfold save. destruct (write_result (index st)); cbn; rewrite ?length_app; cbn; lia.
Qed.

(** ** The files that [getModelFiles] removes and parses *)









Lemma walk_loop_spec `{GoParser} (generateFilePrefix : string) (calls : list WalkCall) :
  forall st : walkState,
    Forall (fun call => info call <> None) calls ->
    walk_loop generateFilePrefix calls st
    = Ret {| removed := removed st
                        ++ map filePath (List.filter (to_remove generateFilePrefix) calls);
             parsed := parsed st
                       ++ map (fun call => ParseFile (filePath call))
                            (List.filter (to_parse generateFilePrefix) calls) |}.
Proof.
  induction calls as [|call calls IH]; intros st Hinfo.
  - cbn. rewrite !app_nil_r. destruct st; reflexivity.
  - apply Forall_cons_1 in Hinfo as [Hcall Hinfo].
    cbn [walk_loop List.filter]. unfold walk_fn, to_remove, to_parse, is_go_file.
    destruct (info call) as [i|]; [|contradiction]. cbn.
    destruct (IsDir i); cbn; [exact (IH _ Hinfo)|].
    destruct (String.eqb (path.Ext (FileInfo_Name i)) _goFileExt); cbn; [|exact (IH _ Hinfo)].
    destruct (strings.HasPrefix (FileInfo_Name i) generateFilePrefix); cbn.
    + rewrite (IH _ Hinfo). cbn [removed parsed]. rewrite <- app_assoc. reflexivity.
    + rewrite (IH _ Hinfo). cbn [removed parsed]. rewrite <- app_assoc. reflexivity.
Qed.

Lemma walk_loop_returns `{GoParser} (generateFilePrefix : string) (calls : list WalkCall) :
  forall st st' : walkState,
    walk_loop generateFilePrefix calls st = Ret st' ->
    Forall (fun call => info call <> None) calls.
Proof.
  induction calls as [|call calls IH]; intros st st' Hret; [constructor|].
  cbn [walk_loop] in Hret.
  destruct (walk_fn generateFilePrefix st call) as [st1|p] eqn:Hcall; [|discriminate].
  constructor.
  - intros Hnil. unfold walk_fn in Hcall. rewrite Hnil in Hcall. discriminate.
  - exact (IH _ _ Hret).
Qed.

(** X18. [getModelFiles] returns exactly when every call of the walk
    comes with an [info]; a call without one, as the walk makes for a
    path that does not exist, makes it panic.  When it returns, the
    files removed are the regular [.go] files whose name starts with the
    prefix, the files parsed are the other regular [.go] files, at every
    depth of the tree, both in the order of the walk, and each parse
    result is kept, a nil one included. *)
Theorem X18_getModelFiles_splits_the_walk `{GoParser}
    (generateFilePrefix : string) (calls : list WalkCall) (st : walkState) :
  getModelFiles generateFilePrefix calls = Ret st
  <-> Forall (fun call => info call <> None) calls
      /\ removed st = map filePath (List.filter (to_remove generateFilePrefix) calls)
      /\ parsed st = map (fun call => ParseFile (filePath call))
                       (List.filter (to_parse generateFilePrefix) calls).
Proof.
  unfold getModelFiles. split.
  - intros Hret. pose proof (walk_loop_returns _ _ _ _ Hret) as Hinfo.
    rewrite (walk_loop_spec _ _ _ Hinfo) in Hret. injection Hret as <-. auto.
  - intros (Hinfo & Hremoved & Hparsed). rewrite (walk_loop_spec _ _ _ Hinfo).
    destruct st as [r p]. cbn in *. subst. reflexivity.
Qed.

Lemma filter_none {A} (p : A -> bool) (l : list A) :
  (forall x, p x = false) -> List.filter p l = [].
Proof.
  intros Hp. induction l as [|x l IH]; [reflexivity|]. cbn. rewrite Hp. exact IH.
Qed.

(** X19. With the empty string as the prefix of the generated files,
    [getModelFiles] parses no file and gives every regular [.go] file of
    the tree to [os.Remove]. *)
Theorem X19_empty_prefix_removes_every_go_file `{GoParser} (calls : list WalkCall) :
  Forall (fun call => info call <> None) calls ->
  getModelFiles EmptyString calls
  = Ret {| removed :=
             map filePath
               (List.filter (fun call => match info call with
                                         | Some i => is_go_file i
                                         | None => false
                                         end) calls);
           parsed := [] |}.
Proof.
  intros Hinfo. unfold getModelFiles. rewrite (walk_loop_spec _ _ _ Hinfo). cbn [removed parsed app].
  assert (Hall : forall s, strings.HasPrefix s EmptyString = true) by (intros []; reflexivity).
  f_equal. f_equal.
  - f_equal. clear Hinfo. induction calls as [|call calls IH]; [reflexivity|].
    cbn [List.filter]. rewrite IH. unfold to_remove.
    destruct (info call) as [i|]; [|reflexivity]. rewrite Hall, andb_true_r. reflexivity.
  - rewrite filter_none; [reflexivity|]. intros call. unfold to_parse.
    destruct (info call) as [i|]; [|reflexivity]. rewrite Hall, andb_false_r. reflexivity.
Qed.

Lemma X19_witness :
  @getModelFiles empty_parser EmptyString
    [regular_file "./" "user.go"; regular_file "./" "README.md";
     regular_file "./sub/" "order.go"]
  = Ret {| removed := ["./user.go"; "./sub/order.go"]%string; parsed := [] |}.
Proof.
  exact (@X19_empty_prefix_removes_every_go_file empty_parser
           [regular_file "./" "user.go"; regular_file "./" "README.md";
            regular_file "./sub/" "order.go"]
           ltac:(repeat constructor; discriminate)).
Defined.

(** ** The whole run *)



(** ** Conventional tags: every pair but the last is read *)

Lemma key_byte_no_space (c : ascii) : key_byte c = true -> Ascii.eqb c " " = false.
Proof.
  unfold key_byte. intros Hc. destruct (Ascii.eqb_spec c " ") as [-> | _]; [|reflexivity].
  discriminate Hc.
Qed.

Lemma key_skip_space (k r : string) :
  key_bytes k = true -> k <> EmptyString ->
  reflect.skip_space (String.append k r) = String.append k r.
Proof.
  destruct k as [|c k]; [contradiction|]. cbn [key_bytes]. intros Hk _.
  apply andb_true_iff in Hk as [Hc _].
  rewrite append_cons. cbn [reflect.skip_space]. rewrite (key_byte_no_space c Hc). reflexivity.
Qed.

Lemma key_scan_name (k r : string) :
  key_bytes k = true ->
  reflect.scan_name (String.append k (String ":" r)) = String.length k.
Proof.
  induction k as [|c k IH]; intros Hk.
  - reflexivity.
  - cbn [key_bytes] in Hk. apply andb_true_iff in Hk as [Hc Hk].
    rewrite append_cons. cbn [reflect.scan_name String.length].
    unfold key_byte in Hc. rewrite Hc, (IH Hk). reflexivity.
Qed.

Lemma key_no_quotes (k : string) : key_bytes k = true -> quotes k = 0%nat.
Proof.
  induction k as [|c k IH]; [reflexivity|]. cbn [key_bytes quotes]. intros Hk.
  apply andb_true_iff in Hk as [Hc Hk]. unfold key_byte in Hc.
  apply andb_true_iff in Hc as [Hc _]. apply andb_true_iff in Hc as [_ Hq].
  apply negb_true_iff in Hq. rewrite Hq. exact (IH Hk).
Qed.

Lemma plain_no_quotes (V : string) : plain_value V = true -> quotes V = 0%nat.
Proof.
  induction V as [|c V IH]; [reflexivity|]. cbn [plain_value quotes]. intros HV.
  apply andb_true_iff in HV as [Hc HV]. apply andb_true_iff in Hc as [_ Hq].
  apply negb_true_iff in Hq. rewrite Hq. exact (IH HV).
Qed.

Lemma quotes_append (a b : string) : quotes (String.append a b) = (quotes a + quotes b)%nat.
Proof.
  induction a as [|c a IH]; [reflexivity|].
  rewrite append_cons. cbn [quotes]. rewrite IH. destruct (Ascii.eqb c "034"); reflexivity.
Qed.

(** A leading space changes nothing. *)
Lemma Lookup_space `{Strconv} (T key : string) :
  reflect.Lookup (String " " T) key = reflect.Lookup T key.
Proof.
  unfold reflect.Lookup at 1. cbn [String.length].
  rewrite <- (Lookup_fuel (S (S (String.length T))) T key) by lia.
  cbn [reflect.Lookup_loop]. change (String.eqb (String " " T) EmptyString) with false.
  cbn [reflect.skip_space]. change (Ascii.eqb " " " ") with true. cbn iota.
  destruct T as [|c T]; reflexivity.
Qed.

Lemma Lookup_cons_pair `{Strconv} (kv : string * string) (rest key : string) :
  conventional_pair kv = true ->
  reflect.Lookup (String.append (tag_pair kv) (String " " rest)) key
  = if String.eqb key (fst kv) then Some (snd kv) else reflect.Lookup rest key.
Proof.
  destruct kv as [k V]. unfold conventional_pair, tag_pair. cbn [fst snd]. intros Hkv.
  apply andb_true_iff in Hkv as [Hk HV]. apply andb_true_iff in Hk as [Hne Hk].
  apply negb_true_iff, String.eqb_neq in Hne.
  assert (Hshape : String.append
                     (String.append k
                        (String.append ":" (String.append dquote (String.append V dquote))))
                     (String " " rest)
                   = String.append k
                       (String ":" (String "034" (String.append V (String "034" (String " " rest)))))).
  { rewrite append_assoc. f_equal.
    change (String.append ":" ?x) with (String ":" x). rewrite append_cons. f_equal.
    change (String.append dquote ?x) with (String "034" x). rewrite append_cons. f_equal.
    rewrite append_assoc. reflexivity. }
  rewrite Hshape. unfold reflect.Lookup at 1.
  rewrite (Lookup_pair _ k V (String " " rest) key Hne
             (fun r => key_skip_space k r Hk Hne) (fun r => key_scan_name k r Hk) HV).
  destruct (String.eqb key k); [reflexivity|].
  rewrite Lookup_fuel, Lookup_space; [reflexivity|].
  rewrite length_append. cbn [String.length]. rewrite length_append. cbn [String.length]. lia.
Qed.

Lemma Get_front `{Strconv} (pairs : list (string * string)) (tail key : string) :
  Forall (fun kv => conventional_pair kv = true) pairs ->
  reflect.Lookup tail key = None ->
  reflect.Get (String.append (tag_front pairs) tail) key = tag_value pairs key.
Proof.
  intros Hpairs Htail. unfold reflect.Get.
  induction Hpairs as [|kv pairs Hkv Hpairs IH].
  - change (String.append (tag_front []) tail) with tail. rewrite Htail. reflexivity.
  - cbn [tag_front tag_value]. rewrite append_assoc, append_cons.
    rewrite (Lookup_cons_pair kv _ key Hkv).
    destruct (String.eqb key (fst kv)); [reflexivity | exact IH].
Qed.

Lemma concat_pairs_snoc (pairs : list (string * string)) (last_pair : string * string) :
  String.concat " " (map tag_pair (pairs ++ [last_pair]))
  = String.append (tag_front pairs) (tag_pair last_pair).
Proof.
  induction pairs as [|kv pairs IH]; [reflexivity|].
  cbn [app map tag_front]. rewrite append_assoc, append_cons, <- IH.
  destruct (map tag_pair (pairs ++ [last_pair])) as [|x xs] eqn:Hmap.
  - apply (f_equal (@length string)) in Hmap. rewrite length_map, length_app in Hmap.
    cbn in Hmap. lia.
  - reflexivity.
Qed.

Lemma tag_literal_cut (pairs : list (string * string)) (k V : string) :
  strings.slice (tag_literal (pairs ++ [(k, V)])) 1
    (strings.len (tag_literal (pairs ++ [(k, V)])) - 2)
  = Ret (String.append (tag_front pairs)
           (String.append k (String ":" (String "034" V)))).
Proof.
  assert (Hshape : tag_literal (pairs ++ [(k, V)])
                   = String "`"
                       (String.append
                          (String.append (tag_front pairs)
                             (String.append k (String ":" (String "034" V))))
                          (String "034" (String "`" EmptyString)))).
  { unfold tag_literal. rewrite concat_pairs_snoc.
    change (String.append "`" ?x) with (String "`" x). f_equal.
    unfold tag_pair. cbn [fst snd].
    change (String.append ":" ?x) with (String ":" x).
    change (String.append dquote ?x) with (String "034" x).
    rewrite !append_assoc. f_equal. f_equal.
    rewrite !append_cons. f_equal. f_equal. rewrite append_assoc. reflexivity. }
  rewrite Hshape. apply slice_literal.
Qed.

Lemma buildModelFieldInfo_typed `{Strconv} (af : Field) (field : ModelFieldInfo) :
  resolve_column af = Ret field ->
  qualified_type (Field_Type af) = true ->
  buildModelFieldInfo af = Ret (set_Type (type_text (Field_Type af)) field).
Proof.
  intros Hcol Hq.
  pose proof (resolve_column_type af field Hcol) as Hempty.
  destruct (strip_stars_text (Field_Type af) 0) as [_ Htext].
  destruct (strip_stars_base (Field_Type af) 0) as [Hbase _].
  unfold buildModelFieldInfo, qualified_type in *. rewrite Hcol. cbn.
  destruct (strip_stars (Field_Type af) 0) as [afType starLoop].
  cbn [fst snd] in *. rewrite Nat.sub_0_r in Htext.
  rewrite (resolve_type_text afType field Hbase Hq Hempty). cbn. rewrite Htext. reflexivity.
Qed.

(** X21. A named field with a conventional tag literal in back quotes:
    the last pair of the literal is never read, whatever its key and its
    value, and the field is what the pairs before it give.  The [gorm]
    value among them, if it is not empty, gives the column of its last
    [column:] token and the flag of its primary-key tokens; else the
    [json] value, if it is not empty, is the column; else the column is
    the snake case of the name.  The type is the text of the declared
    type. *)
Theorem X21_last_pair_is_never_read `{Strconv}
    (af : Field) (name : string) (names : list string)
    (pairs : list (string * string)) (last_pair : string * string) :
  Field_Names af = name :: names ->
  Field_Tag af = Some (tag_literal (pairs ++ [last_pair])) ->
  Forall (fun kv => conventional_pair kv = true) (pairs ++ [last_pair]) ->
  qualified_type (Field_Type af) = true ->
  buildModelFieldInfo af
  = Ret (set_Type (type_text (Field_Type af)) (field_of_pairs name pairs)).
Proof.
  intros Hn Htag Hconv Hq. destruct last_pair as [k V].
  apply Forall_app in Hconv as [Hpairs Hlast]. apply Forall_cons_1 in Hlast as [Hlast _].
  unfold conventional_pair in Hlast. cbn [fst snd] in Hlast.
  apply andb_true_iff in Hlast as [Hk HV]. apply andb_true_iff in Hk as [_ Hk].
  assert (Htail : forall key,
             reflect.Lookup (String.append k (String ":" (String "034" V))) key = None).
  { intros key. apply Lookup_needs_two_quotes.
    rewrite quotes_append. cbn [quotes]. change (Ascii.eqb ":" "034") with false.
    change (Ascii.eqb "034" "034") with true. cbn iota.
    rewrite (key_no_quotes k Hk), (plain_no_quotes V HV). lia. }
  pose proof (resolve_column_tagged af name names _ _ Hn Htag (tag_literal_cut pairs k V))
    as Hcol.
  rewrite !(Get_front pairs _ _ Hpairs (Htail _)) in Hcol.
  rewrite (buildModelFieldInfo_typed af _ Hcol Hq). do 2 f_equal.
  unfold field_of_pairs.
  destruct (negb (String.eqb (tag_value pairs "gorm") EmptyString)).
  - rewrite scan_tokens_fold. reflexivity.
  - destruct (negb (String.eqb (tag_value pairs "json") EmptyString)); reflexivity.
Qed.

Lemma X21_witness :
  @buildModelFieldInfo plain_strconv
    (mkField ["ID"] (Ident "int64" None)
       (Some (tag_literal [("json", "id"); ("gorm", "primaryKey")])))
  = Ret (set_Type (type_text (Ident "int64" None)) (field_of_pairs "ID" [("json", "id")])).
Proof.
  apply (@X21_last_pair_is_never_read plain_strconv
           (mkField ["ID"] (Ident "int64" None)
              (Some (tag_literal [("json", "id"); ("gorm", "primaryKey")])))
           "ID" [] [("json", "id")] ("gorm", "primaryKey")).
  - reflexivity.
  - reflexivity.
  - repeat constructor.
  - reflexivity.
Defined.
